(** * EN 1993 bolt design resistances: a shallow embedding

    The development embeds the two bolted-connection resistance engines of
    the repository,

    - [src/1-8_2005/3_Connections/C3_6_design_resistance.py]
      (class [ResistenciaCalculo], EN 1993-1-8 table 3.4), and
    - [src/1-3_2006/8_Cálculo_uniones/C8_3_resistencia_diseño_tornillos.py]
      (classes [ResistenciasDisenoTornillos] and [RangoValidez],
      EN 1993-1-3 table 8.4),

    and states the properties of the specification about them.

    Modelling conventions.

    - A Python [float] is idealised as a real number ([R]): [+], [-], [*]
      are exact, a decimal literal denotes its decimal value, and [math.pi]
      is the real [PI].  Rounding, overflow and NaN are outside the model.
    - [x / y] on numbers is [truediv]: it raises [ZeroDivisionError] when
      the divisor is zero, as Python does.
    - A Python [int] is a [Z], a [str] is a [string] of bytes, a [bool] is
      a [bool], a tuple produced by a generator is a [list].
    - A call is a value of [py A]: the lines written to standard output in
      order, then either the returned value or the exception raised.
    - A local variable that only some branches assign is an [option]; reading
      it with [local] raises [UnboundLocalError] when no branch assigned it. *)

From Stdlib Require Import Reals Lra Psatz String Ascii ZArith List Bool.
From Stdlib Require Floats.
Import ListNotations.

Local Open Scope string_scope.

(** ** Python effects: standard output and exceptions *)

Inductive exception : Type :=
| ValueError (msg : string)
| UnboundLocalError (name : string)
| IndexError (msg : string)
| ZeroDivisionError.

Inductive outcome (A : Type) : Type :=
| Return (a : A)
| Raise (e : exception).

Arguments Return {A} a.
Arguments Raise {A} e.

Definition py (A : Type) : Type := (list string * outcome A)%type.

Definition ret {A : Type} (a : A) : py A := ([], Return a).

Definition raise {A : Type} (e : exception) : py A := ([], Raise e).

Definition print (line : string) : py unit := ([line], Return tt).

Definition bind {A B : Type} (m : py A) (k : A -> py B) : py B :=
  match m with
  | (out, Return a) => let (out', r) := k a in ((out ++ out')%list, r)
  | (out, Raise e) => (out, Raise e)
  end.

Notation "x <- m ;; k" := (bind m (fun x => k))
  (at level 61, m at next level, right associativity).
Notation "m ;; k" := (bind m (fun _ => k))
  (at level 61, right associativity).

(** Reading a local variable. *)
Definition local {A : Type} (name : string) (v : option A) : py A :=
  match v with
  | Some a => ret a
  | None => raise (UnboundLocalError name)
  end.

(** [x / y] on floats. *)
Definition truediv (x y : R) : py R :=
  if Req_dec_T y 0 then raise ZeroDivisionError else ret (x / y)%R.

(** The builtin [min(a, b)]: the first argument is kept unless the second is
    strictly smaller. *)
Definition min2 (a b : R) : R := if Rlt_dec b a then b else a.

(** The builtin [min(a, b, c)]. *)
Definition min3 (a b c : R) : R := min2 (min2 a b) c.

(** [s in (s1, ..., sn)] on strings. *)
Definition str_in (s : string) (l : list string) : bool :=
  existsb (String.eqb s) l.

(** Observations of a call: how it ended. *)
Definition result {A : Type} (m : py A) : outcome A := snd m.

Definition returns {A : Type} (m : py A) : bool :=
  match result m with
  | Return _ => true
  | Raise _ => false
  end.

(** The double quote character, for messages that quote a word. *)
Definition dquote : string := String "034"%char EmptyString.

(** ** [str.split('.', 1)] and [int(str)] *)

(** [s.split('.', 1)]: the part before the first dot and the rest after it,
    or the whole string alone when it has no dot. *)
Fixpoint split_dot_1 (s : string) : list string :=
  match s with
  | EmptyString => [EmptyString]
  | String c s' =>
      if Ascii.eqb c "."%char then [EmptyString; s']
      else
        match split_dot_1 s' with
        | hd :: tl => String c hd :: tl
        | [] => [String c EmptyString]
        end
  end.

(** [l[i]] on a list. *)
Definition getitem {A : Type} (l : list A) (i : nat) : py A :=
  match nth_error l i with
  | Some a => ret a
  | None => raise (IndexError "list index out of range")
  end.

(** Characters that [int] strips from both ends of an ASCII string: the
    space and the controls 9 to 13 (tab, line feed, vertical tab, form feed,
    carriage return). *)
Definition is_space (c : ascii) : bool :=
  let n := nat_of_ascii c in
  (n =? 32)%nat || ((9 <=? n)%nat && (n <=? 13)%nat).

Definition digit_of (c : ascii) : option Z :=
  let n := nat_of_ascii c in
  if ((48 <=? n)%nat && (n <=? 57)%nat)%bool
  then Some (Z.of_nat (n - 48))
  else None.

Fixpoint lstrip (l : list ascii) : list ascii :=
  match l with
  | c :: l' => if is_space c then lstrip l' else l
  | [] => []
  end.

Definition strip (l : list ascii) : list ascii :=
  rev (lstrip (rev (lstrip l))).

(** Decimal digits, with single underscores allowed between digits.
    [prev] tells whether the previous character was a digit. *)
Fixpoint parse_digits (acc : Z) (prev : bool) (l : list ascii) : option Z :=
  match l with
  | [] => if prev then Some acc else None
  | c :: l' =>
      match digit_of c with
      | Some k => parse_digits (10 * acc + k) true l'
      | None =>
          if (Ascii.eqb c "_"%char && prev)%bool
          then parse_digits acc false l'
          else None
      end
  end.

Definition parse_int (l : list ascii) : option Z :=
  match strip l with
  | c :: l' =>
      if Ascii.eqb c "-"%char then option_map Z.opp (parse_digits 0 false l')
      else if Ascii.eqb c "+"%char then parse_digits 0 false l'
      else parse_digits 0 false (c :: l')
  | [] => None
  end.

(** [int(s)] for an ASCII string [s] (the limit on the number of digits and
    non-ASCII digits are outside the model).  The message of the error omits
    the quoted argument. *)
Definition int (s : string) : py Z :=
  match parse_int (list_ascii_of_string s) with
  | Some n => ret n
  | None => raise (ValueError "invalid literal for int() with base 10")
  end.

(** ** EN 1993-1-8, table 3.4: [ResistenciaCalculo] *)

Module EN1993_1_8.

Local Open Scope R_scope.

Record ResistenciaCalculo : Type := {
  d : R;
  A : R;
  A_s : R;
  grado : string;
  f_ub : R;
  t : R;
  f_u : R;
  g_M2 : R
}.

(** [ResistenciaCalculo.__init__] *)
Definition init (d A A_s : R) (grado : string) (f_ub t f_u g_M2 : R)
  : py ResistenciaCalculo :=
  if Rle_dec g_M2 0 then raise (ValueError ":( g_M2 debe ser positivo.")
  else if Rle_dec f_u 0 then raise (ValueError ":( f_u debe ser positivo.")
  else ret {| d := d; A := A; A_s := A_s; grado := grado; f_ub := f_ub;
              t := t; f_u := f_u; g_M2 := g_M2 |}.

Definition coeficiente_cortante_alfa_v
  (self : ResistenciaCalculo) (plano_cortante_atraviesa_rosca : bool) : py R :=
  let alfa_v : option R :=
    if plano_cortante_atraviesa_rosca then
      if str_in (grado self) ["4.6"; "5.6"; "8.8"]%string then Some 0.6
      else if str_in (grado self) ["4.8"; "5.8"; "6.8"; "10.9"]%string
           then Some 0.5
           else None
    else Some 0.6 in
  local "alfa_v" alfa_v.

Definition resistencia_cortante
  (self : ResistenciaCalculo) (plano_cortante_atraviesa_rosca : bool) : py R :=
  alfa_v <- coeficiente_cortante_alfa_v self plano_cortante_atraviesa_rosca ;;
  let A := if plano_cortante_atraviesa_rosca then A_s self else A self in
  truediv (alfa_v * f_ub self * A) (g_M2 self).

Definition msg_d_0 : string := ":( d_0 debe ser positivo.".

Definition msg_posicion_k_1 : string :=
  ":( Posición no válida. Debe ser " ++ dquote ++ "edge" ++ dquote ++ " o "
  ++ dquote ++ "inner" ++ dquote ++ ".".

Definition coeficiente_k_1
  (self : ResistenciaCalculo) (e_2 p_2 d_0 : R) (posicion : string) : py R :=
  if Rle_dec d_0 0 then raise (ValueError msg_d_0)
  else if (posicion =? "edge")%string then
    q_11 <- truediv (2.8 * e_2) d_0 ;;
    let k_11 := q_11 - 1.7 in
    q_12 <- truediv (1.4 * p_2) d_0 ;;
    let k_12 := q_12 - 1.7 in
    let k_13 := 2.5 in
    ret (min3 k_11 k_12 k_13)
  else if (posicion =? "inner")%string then
    q_11 <- truediv (1.4 * p_2) d_0 ;;
    let k_11 := q_11 - 1.7 in
    let k_12 := 2.5 in
    ret (min2 k_11 k_12)
  else raise (ValueError msg_posicion_k_1).

Definition coeficiente_alfa_d
  (self : ResistenciaCalculo) (e_1 p_1 d_0 : R) (posicion : string) : py R :=
  if Rle_dec d_0 0 then raise (ValueError msg_d_0)
  else
    alfa_d <-
      (if (posicion =? "end")%string then
         q <- truediv e_1 (3 * d_0) ;; ret (Some q)
       else if (posicion =? "inner")%string then
         q <- truediv p_1 (3 * d_0) ;; ret (Some (q - 1 / 4))
       else
         print "Algo ha ido mal :(" ;; ret None) ;;
    local "alfa_d" alfa_d.

Definition coeficiente_alfa_b
  (self : ResistenciaCalculo) (e_1 p_1 d_0 : R) (posicion : string) : py R :=
  if Rle_dec d_0 0 then raise (ValueError msg_d_0)
  else
    alfa_d <- coeficiente_alfa_d self e_1 p_1 d_0 posicion ;;
    q <- truediv (f_ub self) (f_u self) ;;
    ret (min3 alfa_d q 1.0).

Definition capacidad_resistente_F_bRd
  (self : ResistenciaCalculo) (e_1 e_2 p_1 p_2 d_0 : R)
  (posicion_k1 posicion_ad : string) : py R :=
  k_1 <- coeficiente_k_1 self e_2 p_2 d_0 posicion_k1 ;;
  alfa_b <- coeficiente_alfa_b self e_1 p_1 d_0 posicion_ad ;;
  truediv (k_1 * alfa_b * f_u self * d self * t self) (g_M2 self).

Definition capacidad_resistente_taladro_holgura_F_bRd
  (self : ResistenciaCalculo) (e_1 e_2 p_1 p_2 d_0 : R)
  (posicion_k1 posicion_ad : string) : py R :=
  F_bRd <- capacidad_resistente_F_bRd self e_1 e_2 p_1 p_2 d_0
             posicion_k1 posicion_ad ;;
  ret (0.8 * F_bRd).

Definition msg_rasgado_k1 : string :=
  "Posición no válida. Debe ser " ++ dquote ++ "end" ++ dquote ++ " o "
  ++ dquote ++ "inner" ++ dquote ++ ".".

Definition msg_rasgado_ad : string :=
  "Posición no válida. Debe ser " ++ dquote ++ "edge" ++ dquote ++ " o "
  ++ dquote ++ "inner" ++ dquote ++ ".".

Definition capacidad_resistente_taladro_rasgado_F_bRd
  (self : ResistenciaCalculo) (e_1 e_2 p_1 p_2 d_0 : R)
  (posicion_k1 posicion_ad : string) : py R :=
  if negb (str_in posicion_k1 ["edge"; "inner"]%string)
  then raise (ValueError msg_rasgado_k1)
  else if negb (str_in posicion_ad ["end"; "inner"]%string)
  then raise (ValueError msg_rasgado_ad)
  else
    F_bRd <- capacidad_resistente_F_bRd self e_1 e_2 p_1 p_2 d_0
               posicion_k1 posicion_ad ;;
    ret (0.6 * F_bRd).

Definition media_de_distancias_entre_vertices_y_caras_planas_d_m
  (self : ResistenciaCalculo) (s : R) : R :=
  1.07735 * s.

Definition resistencia_punzonamiento_B_pRd
  (self : ResistenciaCalculo) (s : R) : py R :=
  let d_m := media_de_distancias_entre_vertices_y_caras_planas_d_m self s in
  truediv (0.6 * PI * d_m * t self * f_u self) (g_M2 self).

Definition coeficiente_k_2
  (self : ResistenciaCalculo) (cabeza_avellanada : bool) : R :=
  if cabeza_avellanada then 0.63 else 0.9.

Definition resistencia_traccion_F_tRd
  (self : ResistenciaCalculo) (cabeza_avellanada : bool) : py R :=
  let k_2 := coeficiente_k_2 self cabeza_avellanada in
  truediv (k_2 * f_ub self * A_s self) (g_M2 self).

End EN1993_1_8.

(** ** EN 1993-1-3, table 8.4: [RangoValidez] and [ResistenciasDisenoTornillos] *)

(** [tuple(f(x) for x in l)]: the items are computed in order and the first
    exception ends the construction. *)
Fixpoint tuple_of {A B : Type} (f : A -> py B) (l : list A) : py (list B) :=
  match l with
  | [] => ret []
  | a :: l' => b <- f a ;; bs <- tuple_of f l' ;; ret (b :: bs)
  end.

Module EN1993_1_3.

Local Open Scope R_scope.

Record RangoValidez : Type := { RangoValidez_d_0 : R }.

Definition rango_validez_e_1 (self : RangoValidez) : R :=
  RangoValidez_d_0 self.

Definition rango_validez_e_2 (self : RangoValidez) : R :=
  1.5 * RangoValidez_d_0 self.

Definition rango_validez_p_1 (self : RangoValidez) : R :=
  3 * RangoValidez_d_0 self.

Definition rango_validez_p_2 (self : RangoValidez) : R :=
  3 * RangoValidez_d_0 self.

Record ResistenciasDisenoTornillos : Type := {
  d : R;
  A_s : R;
  grado : string;
  d_0 : R;
  t : R;
  f_u : R;
  g_M2 : R
}.

(** [ResistenciasDisenoTornillos.__init__]: the fields are stored as given. *)
Definition init (d A_s : R) (grado : string) (d_0 t f_u g_M2 : R)
  : ResistenciasDisenoTornillos :=
  {| d := d; A_s := A_s; grado := grado; d_0 := d_0; t := t; f_u := f_u;
     g_M2 := g_M2 |}.

Definition coeficiente_alfa_b (self : ResistenciasDisenoTornillos) : py R :=
  let rango_validez := {| RangoValidez_d_0 := d_0 self |} in
  let e_1 := rango_validez_e_1 rango_validez in
  let alfa_b_1 := 1.0 in
  alfa_b_2 <- truediv e_1 (3 * d self) ;;
  ret (min2 alfa_b_1 alfa_b_2).

Definition coeficiente_k_t (self : ResistenciasDisenoTornillos) : R :=
  if Rle_dec (t self) 1.25 then (0.8 * t self + 1.5) / 2.5 else 1.0.

Definition capacidad_resitente_F_bRd (self : ResistenciasDisenoTornillos)
  : py R :=
  alfa_b <- coeficiente_alfa_b self ;;
  let k_t := coeficiente_k_t self in
  truediv (2.5 * alfa_b * k_t * f_u self * d self * t self) (g_M2 self).

Definition area_transversal_neta (self : ResistenciasDisenoTornillos) : R :=
  let rango_validez := {| RangoValidez_d_0 := d_0 self |} in
  let p_2 := rango_validez_p_2 rango_validez in
  (p_2 - d_0 self) * t self.

Definition relacion_tornillos_seccion_neta_entre_tornillos_totales
  (self : ResistenciasDisenoTornillos) : list R :=
  [2.0; 1.0; 0.5; 1 / 3].

Definition coeficiente_u (self : ResistenciasDisenoTornillos) : R :=
  let rango_validez := {| RangoValidez_d_0 := d_0 self |} in
  let e_2 := rango_validez_e_2 rango_validez in
  let p_2 := rango_validez_p_2 rango_validez in
  let u_1 := 2 * e_2 in
  let u_2 := p_2 in
  min2 u_1 u_2.

Definition capacidad_resistente_area_transversal_neta_F_nRd
  (self : ResistenciasDisenoTornillos) : py (list R) :=
  let r := relacion_tornillos_seccion_neta_entre_tornillos_totales self in
  let u := coeficiente_u self in
  let A_net := area_transversal_neta self in
  F_nRd_1 <-
    tuple_of
      (fun ri =>
         q <- truediv (d_0 self) u ;;
         truediv ((1 + 3 * ri * (q - 0.3)) * A_net * f_u self) (g_M2 self))
      r ;;
  F_nRd_2 <- truediv (A_net * f_u self) (g_M2 self) ;;
  ret (map (fun F_nRd_1i => min2 F_nRd_1i F_nRd_2) F_nRd_1).

Definition limite_elastico_tornillo_f_yb (self : ResistenciasDisenoTornillos)
  : py Z :=
  s1 <- getitem (split_dot_1 (grado self)) 0 ;;
  n1 <- int s1 ;;
  s2 <- getitem (split_dot_1 (grado self)) 2 ;;
  n2 <- int s2 ;;
  ret (n1 * n2 * 10)%Z.

Definition resistencia_ultima_traccion_tornillo_f_ub
  (self : ResistenciasDisenoTornillos) : py Z :=
  s1 <- getitem (split_dot_1 (grado self)) 0 ;;
  n1 <- int s1 ;;
  ret (n1 * 100)%Z.

Definition resistencia_cortante_F_vRd (self : ResistenciasDisenoTornillos)
  : py R :=
  f_ub <- resistencia_ultima_traccion_tornillo_f_ub self ;;
  F_vRd <-
    (if str_in (grado self) ["4.6"; "5.6"; "8.8"]%string then
       q <- truediv (0.6 * IZR f_ub * A_s self) (g_M2 self) ;; ret (Some q)
     else if str_in (grado self) ["4.8"; "5.8"; "6.8"; "10.9"]%string then
       q <- truediv (0.5 * IZR f_ub * A_s self) (g_M2 self) ;; ret (Some q)
     else
       print "Algo no cuadra." ;; ret None) ;;
  local "F_vRd" F_vRd.

Definition resistencia_traccion_F_tRd (self : ResistenciasDisenoTornillos)
  : py R :=
  f_ub <- resistencia_ultima_traccion_tornillo_f_ub self ;;
  truediv (0.9 * IZR f_ub * A_s self) (g_M2 self).

End EN1993_1_3.

(** ** The specification's vocabulary *)

(** The enumerated bolt grades of the specification. *)
Definition valid_grades : list string :=
  ["4.6"; "4.8"; "5.6"; "5.8"; "6.8"; "8.8"; "10.9"].

(** The shear coefficient as the specification words it: 0.6 when the shear
    plane avoids the thread; through the thread, 0.6 for grades 4.6, 5.6 and
    8.8 and 0.5 for grades 4.8, 5.8, 6.8 and 10.9. *)
Definition spec_alpha_v (grade : string) (through_thread : bool) : R :=
  if through_thread then
    if str_in grade ["4.6"; "5.6"; "8.8"] then 0.6%R else 0.5%R
  else 0.6%R.

(** The edge coefficient of the specification:
    min(2.8 e_2/d_0 - 1.7, 1.4 p_2/d_0 - 1.7, 2.5) for an "edge" bolt,
    min(1.4 p_2/d_0 - 1.7, 2.5) for an "inner" bolt. *)
Definition spec_k_1 (e_2 p_2 d_0 : R) (position : string) : R :=
  if position =? "edge"
  then Rmin (Rmin (2.8 * e_2 / d_0 - 1.7) (1.4 * p_2 / d_0 - 1.7)) 2.5
  else Rmin (1.4 * p_2 / d_0 - 1.7) 2.5.

(** The bearing coefficient of the specification: min(alpha_d, f_ub/f_u, 1). *)
Definition spec_alpha_b (alpha_d f_ub f_u : R) : R :=
  Rmin (Rmin alpha_d (f_ub / f_u)) 1.

(** The load-direction coefficient of the specification: e_1/(3 d_0) for an
    "end" bolt, p_1/(3 d_0) - 1/4 for an "inner" bolt. *)
Definition spec_alpha_d (e_1 p_1 d_0 : R) (position : string) : R :=
  if position =? "end" then (e_1 / (3 * d_0))%R
  else (p_1 / (3 * d_0) - 1 / 4)%R.

(** A decimal numeral: a non-empty string of the digits 0 to 9, and the
    number it denotes. *)
Definition is_digit (c : ascii) : bool :=
  match digit_of c with
  | Some _ => true
  | None => false
  end.

Definition is_numeral (s : string) : bool :=
  match list_ascii_of_string s with
  | [] => false
  | l => forallb is_digit l
  end.

Definition numeral_value_from (acc : Z) (l : list ascii) : Z :=
  fold_left
    (fun a c => match digit_of c with Some k => 10 * a + k | None => a end)%Z
    l acc.

Definition numeral_value (s : string) : Z :=
  numeral_value_from 0 (list_ascii_of_string s).

(** An angle given in degrees, in radians. *)
Definition deg (x : R) : R := (x * PI / 180)%R.

(** The net-section candidate of the specification for a ratio [r]. *)
Definition spec_F_nRd (r d_0 u A_net f_u g_M2 : R) : R :=
  Rmin ((1 + 3 * r * (d_0 / u - 0.3)) * A_net * f_u / g_M2)
       (A_net * f_u / g_M2).

(** The typed input errors of the specification (invalid input, grade or
    position) are all raised as [ValueError] by the code; the other exception
    classes are failures of the interpreter, not validation errors. *)
Definition is_ValueError (e : exception) : bool :=
  match e with
  | ValueError _ => true
  | _ => false
  end.

(** A call fails with a validation error. *)
Definition fails_with_ValueError {A : Type} (m : py A) : bool :=
  match result m with
  | Raise e => is_ValueError e
  | Return _ => false
  end.


(** ** EN 1993-1-8, section 3.5: [DisposicionTaladros] *)

(** The builtin [max(a, b)]: the first argument is kept unless the second is
    strictly greater. *)
Definition max2 (a b : R) : R := if Rlt_dec a b then b else a.

Module EN1993_1_8_3_5.

Local Open Scope R_scope.

Record DisposicionTaladros : Type := {
  d_0 : R;
  t : R
}.

(** [DisposicionTaladros.__init__] *)
Definition init (d_0 t : R) : py DisposicionTaladros :=
  if Rle_dec d_0 0
  then raise (ValueError ":( El diámetro del taladro debe ser mayor que cero.")
  else if Rle_dec t 0
  then raise (ValueError ":( El espesor de la chapa debe ser mayor que cero.")
  else ret {| d_0 := d_0; t := t |}.

(** e.1 *)
Definition distancia_centro_extremo_direccion_carga_minima
  (self : DisposicionTaladros) : R :=
  1.2 * d_0 self.

Definition distancia_centro_extremo_direccion_carga_maxima_en10025_ambiente_exterior
  (self : DisposicionTaladros) : R :=
  4 * t self + 40.

Definition distancia_centro_extremo_direccion_carga_maxima_en10025_no_ambiente_exterior
  (self : DisposicionTaladros) : string :=
  "--".

Definition distancia_centro_extremo_direccion_carga_maxima_en10025_5
  (self : DisposicionTaladros) : R :=
  let e_11 := 8 * t self in
  let e_12 := 125 in
  max2 e_11 e_12.

(** e.2 *)
Definition distancia_centro_extremo_direccion_perpendicular_carga_minima
  (self : DisposicionTaladros) : R :=
  1.2 * d_0 self.

Definition distancia_centro_extremo_direccion_perpendicular_carga_maxima_en10025_ambiente_exterior
  (self : DisposicionTaladros) : R :=
  4 * t self + 40.

Definition distancia_centro_extremo_direccion_perpendicular_carga_maxima_en10025_no_ambiente_exterior
  (self : DisposicionTaladros) : string :=
  "--".

Definition distancia_centro_extremo_direccion_perpendicular_carga_maxima_en10025_5
  (self : DisposicionTaladros) : R :=
  let e_21 := 8 * t self in
  let e_22 := 125 in
  max2 e_21 e_22.

(** e.3 *)
Definition distancia_eje_taladro_alargado_extremo_minima
  (self : DisposicionTaladros) : R :=
  1.5 * d_0 self.

Definition distancia_eje_taladro_alargado_extremo_maxima_en10025_ambiente_exterior
  (self : DisposicionTaladros) : string :=
  "--".

Definition distancia_eje_taladro_alargado_extremo_maxima_en10025_no_ambiente_exterior
  (self : DisposicionTaladros) : string :=
  "--".

Definition distancia_eje_taladro_alargado_extremo_maxima_en10025_5
  (self : DisposicionTaladros) : string :=
  "--".

(** e.4 *)
Definition distancia_centro_radio_alargado_extremo_minima
  (self : DisposicionTaladros) : R :=
  1.5 * d_0 self.

Definition distancia_centro_radio_alargado_extremo_maxima_en10025_ambiente_exterior
  (self : DisposicionTaladros) : string :=
  "--".

Definition distancia_centro_radio_alargado_extremo_maxima_en10025_no_ambiente_exterior
  (self : DisposicionTaladros) : string :=
  "--".

Definition distancia_centro_radio_alargado_extremo_maxima_en10025_5
  (self : DisposicionTaladros) : string :=
  "--".

(** p.1 *)
Definition espacio_entre_centros_minimo (self : DisposicionTaladros) : R :=
  2.2 * d_0 self.

Definition espacio_entre_centros_maximo_en10025_ambiente_exterior
  (self : DisposicionTaladros) : R :=
  let p_11 := 14 * t self in
  let p_12 := 200 in
  min2 p_11 p_12.

Definition espacio_entre_centros_maximo_en10025_no_ambiente_exterior
  (self : DisposicionTaladros) : R :=
  let p_11 := 14 * t self in
  let p_12 := 200 in
  min2 p_11 p_12.

Definition espacio_entre_centros_maximo_en10025_5
  (self : DisposicionTaladros) : R :=
  let p_11 := 14 * t self in
  let p_12 := 175 in
  min2 p_11 p_12.

(** p.1,0 *)
Definition espacio_entre_centros_fila_exterior_minimo
  (self : DisposicionTaladros) : string :=
  "--".

Definition espacio_entre_centros_fila_exterior_maximo_en10025_ambiente_exterior
  (self : DisposicionTaladros) : R :=
  let p_101 := 14 * t self in
  let p_102 := 200 in
  min2 p_101 p_102.

Definition espacio_entre_centros_fila_exterior_maximo_en10025_no_ambiente_exterior
  (self : DisposicionTaladros) : string :=
  "--".

Definition espacio_entre_centros_fila_exterior_maximo_en10025_5
  (self : DisposicionTaladros) : string :=
  "--".

(** p.1,i *)
Definition espacio_entre_centros_fila_interior_minimo
  (self : DisposicionTaladros) : string :=
  "--".

Definition espacio_entre_centros_fila_interior_maximo_en10025_ambiente_exterior
  (self : DisposicionTaladros) : R :=
  let p_1i1 := 28 * t self in
  let p_1i2 := 200 in
  min2 p_1i1 p_1i2.

Definition espacio_entre_centros_fila_interior_maximo_en10025_no_ambiente_exterior
  (self : DisposicionTaladros) : string :=
  "--".

Definition espacio_entre_centros_fila_interior_maximo_en10025_5
  (self : DisposicionTaladros) : string :=
  "--".

(** p.2 *)
Definition espacio_medio_perpendicular_carga_minimo
  (self : DisposicionTaladros) : R :=
  2.4 * d_0 self.

Definition espacio_medio_perpendicular_carga_maximo_en10025_ambiente_exterior
  (self : DisposicionTaladros) : R :=
  let p_21 := 14 * t self in
  let p_22 := 200 in
  min2 p_21 p_22.

Definition espacio_medio_perpendicular_carga_maximo_en10025_no_ambiente_exterior
  (self : DisposicionTaladros) : R :=
  let p_21 := 14 * t self in
  let p_22 := 200 in
  min2 p_21 p_22.

Definition espacio_medio_perpendicular_carga_maximo_en10025_5
  (self : DisposicionTaladros) : R :=
  let p_21 := 14 * t self in
  let p_22 := 175 in
  min2 p_21 p_22.

End EN1993_1_8_3_5.

(** ** Further vocabulary for statements *)

(** A call ends in [ZeroDivisionError]. *)
Definition raises_ZeroDivisionError {A : Type} (m : py A) : bool :=
  match result m with
  | Raise ZeroDivisionError => true
  | _ => false
  end.

(** A string holds no dot. *)
Fixpoint dot_free (s : string) : bool :=
  match s with
  | EmptyString => true
  | String c s' => negb (Ascii.eqb c "."%char) && dot_free s'
  end.

(** The ultimate strengths that the enumerated grades encode, in N/mm2. *)
Definition grade_f_ub_table : list (string * Z) :=
  [("4.6", 400); ("4.8", 400); ("5.6", 500); ("5.8", 500); ("6.8", 600);
   ("8.8", 800); ("10.9", 1000)]%Z.

(** A hole layout: 22 mm holes in a 15 mm plate. *)
Definition example_layout : EN1993_1_8_3_5.DisposicionTaladros :=
  EN1993_1_8_3_5.Build_DisposicionTaladros 22 15.

(** ** The shear formula on binary64 floats

    The arithmetic of [resistencia_cortante] (its last assignment,
    [F_vRd = alfa_v * self.f_ub * A / self.g_M2]) on IEEE 754 binary64
    numbers, each operation rounded to nearest as Python does.  It serves to
    check that the idealisation of floats as reals does not change the value
    of the end-to-end example. *)

Module Binary64.

Import Floats.

Definition F_vRd (alfa_v f_ub A g_M2 : float) : float :=
  (alfa_v * f_ub * A / g_M2)%float.

End Binary64.

(** ** Worked examples *)

(** The bolt of the end-to-end example of the specification: d = 20 mm,
    A = 314 mm2, A_s = 245 mm2, grade 8.8, f_ub = 800, t = 15 mm, f_u = 430,
    gamma_M2 = 1.25. *)
Definition example_M20 : EN1993_1_8.ResistenciaCalculo :=
  EN1993_1_8.Build_ResistenciaCalculo 20 314 245 "8.8" 800 15 430 1.25.

(** The same bolt with a grade outside the enumerated set. *)
Definition example_M20_grade_7_7 : EN1993_1_8.ResistenciaCalculo :=
  EN1993_1_8.Build_ResistenciaCalculo 20 314 245 "7.7" 700 15 430 1.25.

(** A thin-gauge joint: M12 bolt of grade 8.8 in a 13 mm hole, 2 mm plate. *)
Definition example_M12 : EN1993_1_3.ResistenciasDisenoTornillos :=
  EN1993_1_3.init 12 84 "8.8" 13 2 450 1.25.

(** The same joint with a grade outside the enumerated set. *)
Definition example_M12_grade_7_7 : EN1993_1_3.ResistenciasDisenoTornillos :=
  EN1993_1_3.init 12 84 "7.7" 13 2 450 1.25.
(** * Properties *)

(** ** The effect monad and the numeric helpers *)

Section MonadLaws.

Context {A B : Type}.

Lemma bind_ret (a : A) (k : A -> py B) : bind (ret a) k = k a.
Proof. unfold bind, ret. destruct (k a) as [out r]. reflexivity. Qed.

Lemma bind_raise (e : exception) (k : A -> py B) :
  bind (raise e) k = raise e.
Proof. reflexivity. Qed.

End MonadLaws.

Local Open Scope R_scope.

Lemma truediv_ok (x y : R) : y <> 0 -> truediv x y = ret (x / y).
Proof. intros Hy. unfold truediv. destruct (Req_dec_T y 0); [contradiction | reflexivity]. Qed.

Lemma truediv_zero (x : R) : truediv x 0 = raise ZeroDivisionError.
Proof. unfold truediv. destruct (Req_dec_T 0 0); [reflexivity | contradiction]. Qed.

Lemma min2_Rmin (a b : R) : min2 a b = Rmin a b.
Proof.
  unfold min2, Rmin.
  destruct (Rlt_dec b a), (Rle_dec a b); try reflexivity; lra.
Qed.

Lemma min3_Rmin (a b c : R) : min3 a b c = Rmin (Rmin a b) c.
Proof. unfold min3. rewrite !min2_Rmin. reflexivity. Qed.

Lemma tuple_of_pure {A B : Type} (f : A -> py B) (g : A -> B) (l : list A) :
  (forall a : A, f a = ret (g a)) -> tuple_of f l = ret (map g l).
Proof.
  intros Hf. induction l as [| a l IH]; simpl.
  - reflexivity.
  - rewrite Hf, bind_ret, IH, bind_ret. reflexivity.
Qed.

Ltac py_step :=
  repeat first
    [ rewrite bind_ret
    | rewrite bind_raise
    | rewrite truediv_ok by lra ].

(** ** EN 1993-1-8: construction *)

Lemma init_inv_1_8 (d A A_s : R) (grado : string) (f_ub t f_u g_M2 : R)
  (self : EN1993_1_8.ResistenciaCalculo) :
  EN1993_1_8.init d A A_s grado f_ub t f_u g_M2 = ret self ->
  0 < g_M2 /\ 0 < f_u /\
  self = EN1993_1_8.Build_ResistenciaCalculo d A A_s grado f_ub t f_u g_M2.
Proof.
  unfold EN1993_1_8.init.
  destruct (Rle_dec g_M2 0) as [Hg | Hg]; [discriminate |].
  destruct (Rle_dec f_u 0) as [Hf | Hf]; [discriminate |].
  intros H. injection H as <-. repeat split; lra.
Qed.

Lemma init_ok_1_8 (d A A_s : R) (grado : string) (f_ub t f_u g_M2 : R) :
  0 < g_M2 -> 0 < f_u ->
  EN1993_1_8.init d A A_s grado f_ub t f_u g_M2 =
  ret (EN1993_1_8.Build_ResistenciaCalculo d A A_s grado f_ub t f_u g_M2).
Proof.
  intros Hg Hf. unfold EN1993_1_8.init.
  destruct (Rle_dec g_M2 0); [lra |].
  destruct (Rle_dec f_u 0); [lra | reflexivity].
Qed.

(** The constructor rejects a non-positive partial factor or plate strength
    with a [ValueError], the factor first. *)
Lemma init_rejects_1_8 (d A A_s : R) (grado : string) (f_ub t f_u g_M2 : R) :
  (g_M2 <= 0 ->
   EN1993_1_8.init d A A_s grado f_ub t f_u g_M2 =
   raise (ValueError ":( g_M2 debe ser positivo.")) /\
  (0 < g_M2 -> f_u <= 0 ->
   EN1993_1_8.init d A A_s grado f_ub t f_u g_M2 =
   raise (ValueError ":( f_u debe ser positivo.")).
Proof.
  unfold EN1993_1_8.init. split.
  - intros Hg. destruct (Rle_dec g_M2 0); [reflexivity | lra].
  - intros Hg Hf. destruct (Rle_dec g_M2 0); [lra |].
    destruct (Rle_dec f_u 0); [reflexivity | lra].
Qed.

(** ** EN 1993-1-8: the coefficient k_1 *)

Lemma coeficiente_k_1_edge (self : EN1993_1_8.ResistenciaCalculo)
  (e_2 p_2 d_0 : R) :
  0 < d_0 ->
  EN1993_1_8.coeficiente_k_1 self e_2 p_2 d_0 "edge" =
  ret (Rmin (Rmin (2.8 * e_2 / d_0 - 1.7) (1.4 * p_2 / d_0 - 1.7)) 2.5).
Proof.
  intros Hd. unfold EN1993_1_8.coeficiente_k_1.
  destruct (Rle_dec d_0 0); [lra |].
  simpl (_ =? _)%string. py_step. rewrite min3_Rmin. reflexivity.
Qed.

Lemma coeficiente_k_1_inner (self : EN1993_1_8.ResistenciaCalculo)
  (e_2 p_2 d_0 : R) :
  0 < d_0 ->
  EN1993_1_8.coeficiente_k_1 self e_2 p_2 d_0 "inner" =
  ret (Rmin (1.4 * p_2 / d_0 - 1.7) 2.5).
Proof.
  intros Hd. unfold EN1993_1_8.coeficiente_k_1.
  destruct (Rle_dec d_0 0); [lra |].
  simpl (_ =? _)%string. py_step. rewrite min2_Rmin. reflexivity.
Qed.

(** C3: for every e_2, p_2 and d_0 > 0, [coeficiente_k_1] returns
    min(2.8 e_2/d_0 - 1.7, 1.4 p_2/d_0 - 1.7, 2.5) at position "edge" and
    min(1.4 p_2/d_0 - 1.7, 2.5) at position "inner", printing nothing. *)
Theorem C3_coeficiente_k_1_formula (self : EN1993_1_8.ResistenciaCalculo)
  (e_2 p_2 d_0 : R) :
  0 < d_0 ->
  EN1993_1_8.coeficiente_k_1 self e_2 p_2 d_0 "edge" =
    ([], Return (Rmin (Rmin (2.8 * e_2 / d_0 - 1.7) (1.4 * p_2 / d_0 - 1.7)) 2.5))
  /\
  EN1993_1_8.coeficiente_k_1 self e_2 p_2 d_0 "inner" =
    ([], Return (Rmin (1.4 * p_2 / d_0 - 1.7) 2.5)).
Proof.
  intros Hd. split.
  - exact (coeficiente_k_1_edge self e_2 p_2 d_0 Hd).
  - exact (coeficiente_k_1_inner self e_2 p_2 d_0 Hd).
Qed.

(** ** EN 1993-1-8: shear *)

Lemma valid_grades_cases (g : string) :
  str_in g valid_grades = true ->
  In g ["4.6"; "4.8"; "5.6"; "5.8"; "6.8"; "8.8"; "10.9"]%string.
Proof.
  unfold str_in. rewrite existsb_exists.
  intros [x [Hin Heq]]. apply String.eqb_eq in Heq. subst x. exact Hin.
Qed.

Lemma coeficiente_cortante_alfa_v_spec
  (self : EN1993_1_8.ResistenciaCalculo) (through_thread : bool) :
  str_in (EN1993_1_8.grado self) valid_grades = true ->
  EN1993_1_8.coeficiente_cortante_alfa_v self through_thread =
  ret (spec_alpha_v (EN1993_1_8.grado self) through_thread).
Proof.
  intros Hg. apply valid_grades_cases in Hg.
  unfold EN1993_1_8.coeficiente_cortante_alfa_v, spec_alpha_v.
  destruct through_thread; [| reflexivity].
  simpl in Hg.
  repeat (destruct Hg as [<- | Hg]; [reflexivity |]).
  contradiction.
Qed.

Lemma coeficiente_cortante_alfa_v_no_thread
  (self : EN1993_1_8.ResistenciaCalculo) :
  EN1993_1_8.coeficiente_cortante_alfa_v self false = ret 0.6.
Proof. reflexivity. Qed.

(** C1: for every constructed bolt of a valid grade and every thread flag,
    [resistencia_cortante] returns alpha_v * f_ub * A_eff / gamma_M2, with
    A_eff = A_s through the thread and A otherwise and alpha_v as tabulated;
    the end-to-end example evaluates to 94080 N. *)
Theorem C1_resistencia_cortante_formula :
  (forall (d A A_s : R) (grado : string) (f_ub t f_u g_M2 : R)
          (self : EN1993_1_8.ResistenciaCalculo) (through_thread : bool),
      EN1993_1_8.init d A A_s grado f_ub t f_u g_M2 = ([], Return self) ->
      str_in grado valid_grades = true ->
      EN1993_1_8.resistencia_cortante self through_thread =
      ([], Return (spec_alpha_v grado through_thread * f_ub
                   * (if through_thread then A_s else A) / g_M2)))
  /\
  (self <- EN1993_1_8.init 20 314 245 "8.8" 800 15 430 1.25 ;;
   EN1993_1_8.resistencia_cortante self true) = ([], Return 94080).
Proof.
  assert (Hgen :
    forall (d A A_s : R) (grado : string) (f_ub t f_u g_M2 : R)
           (self : EN1993_1_8.ResistenciaCalculo) (through_thread : bool),
      EN1993_1_8.init d A A_s grado f_ub t f_u g_M2 = ([], Return self) ->
      str_in grado valid_grades = true ->
      EN1993_1_8.resistencia_cortante self through_thread =
      ([], Return (spec_alpha_v grado through_thread * f_ub
                   * (if through_thread then A_s else A) / g_M2))).
  { intros d A A_s grado f_ub t f_u g_M2 self through_thread Hinit Hg.
    apply init_inv_1_8 in Hinit. destruct Hinit as [Hpos [_ ->]].
    unfold EN1993_1_8.resistencia_cortante.
    rewrite coeficiente_cortante_alfa_v_spec by exact Hg.
    py_step. simpl. py_step. destruct through_thread; reflexivity. }
  split; [exact Hgen |].
  rewrite init_ok_1_8 by lra. rewrite bind_ret.
  rewrite (Hgen 20 314 245 "8.8"%string 800 15 430 1.25 _ true
             (init_ok_1_8 20 314 245 "8.8" 800 15 430 1.25 ltac:(lra) ltac:(lra))
             eq_refl).
  unfold ret. do 2 f_equal. unfold spec_alpha_v. simpl. lra.
Qed.

(** The end-to-end example on binary64 floats: the literal 0.6 is rounded to
    the nearest float and every operation is rounded, and the result is the
    float 94080 exactly. *)
Module Binary64Facts.

Import Floats.

#[local] Set Warnings "-inexact-float".

Lemma F_vRd_example :
  Binary64.F_vRd 0.6%float 800%float 245%float 1.25%float = 94080%float.
Proof. vm_compute. reflexivity. Qed.

End Binary64Facts.

(** The constructor accepts the example and the general formula applies. *)
Lemma C1_resistencia_cortante_witness :
  EN1993_1_8.init 20 314 245 "8.8" 800 15 430 1.25 = ([], Return example_M20)
  /\ str_in "8.8" valid_grades = true
  /\ EN1993_1_8.resistencia_cortante example_M20 true =
     ([], Return (spec_alpha_v "8.8" true * 800 * 245 / 1.25)).
Proof.
  assert (Hinit :
    EN1993_1_8.init 20 314 245 "8.8" 800 15 430 1.25 = ([], Return example_M20)).
  { apply init_ok_1_8; lra. }
  split; [exact Hinit |]. split; [reflexivity |].
  exact (proj1 C1_resistencia_cortante_formula
           20 314 245 "8.8"%string 800 15 430 1.25 example_M20 true
           Hinit eq_refl).
Defined.

(** A witness for C3 at the example bolt in a 22 mm hole. *)
Lemma C3_coeficiente_k_1_witness :
  0 < 22 /\
  EN1993_1_8.coeficiente_k_1 example_M20 30 60 22 "edge" =
    ([], Return (Rmin (Rmin (2.8 * 30 / 22 - 1.7) (1.4 * 60 / 22 - 1.7)) 2.5))
  /\
  EN1993_1_8.coeficiente_k_1 example_M20 30 60 22 "inner" =
    ([], Return (Rmin (1.4 * 60 / 22 - 1.7) 2.5)).
Proof.
  assert (H : 0 < 22) by lra.
  split; [exact H |].
  exact (C3_coeficiente_k_1_formula example_M20 30 60 22 H).
Defined.

(** ** EN 1993-1-8: the coefficients alpha_d and alpha_b *)

Lemma coeficiente_alfa_d_end (self : EN1993_1_8.ResistenciaCalculo)
  (e_1 p_1 d_0 : R) :
  0 < d_0 ->
  EN1993_1_8.coeficiente_alfa_d self e_1 p_1 d_0 "end" =
  ret (e_1 / (3 * d_0)).
Proof.
  intros Hd. unfold EN1993_1_8.coeficiente_alfa_d.
  destruct (Rle_dec d_0 0); [lra |].
  simpl (_ =? _)%string. py_step. reflexivity.
Qed.

Lemma coeficiente_alfa_d_inner (self : EN1993_1_8.ResistenciaCalculo)
  (e_1 p_1 d_0 : R) :
  0 < d_0 ->
  EN1993_1_8.coeficiente_alfa_d self e_1 p_1 d_0 "inner" =
  ret (p_1 / (3 * d_0) - 1 / 4).
Proof.
  intros Hd. unfold EN1993_1_8.coeficiente_alfa_d.
  destruct (Rle_dec d_0 0); [lra |].
  simpl (_ =? _)%string. py_step. reflexivity.
Qed.

Lemma str_in_two (s a b : string) :
  str_in s [a; b] = true -> s = a \/ s = b.
Proof.
  unfold str_in. simpl. rewrite orb_false_r, orb_true_iff, !String.eqb_eq.
  tauto.
Qed.

Lemma str_in_two_false (s a b : string) :
  str_in s [a; b] = false ->
  (s =? a)%string = false /\ (s =? b)%string = false.
Proof.
  unfold str_in. simpl. rewrite orb_false_r, orb_false_iff. tauto.
Qed.

Lemma coeficiente_alfa_d_valid (self : EN1993_1_8.ResistenciaCalculo)
  (e_1 p_1 d_0 : R) (posicion : string) :
  0 < d_0 ->
  str_in posicion ["end"; "inner"]%string = true ->
  EN1993_1_8.coeficiente_alfa_d self e_1 p_1 d_0 posicion =
  ret (spec_alpha_d e_1 p_1 d_0 posicion).
Proof.
  intros Hd Hp. apply str_in_two in Hp. destruct Hp as [-> | ->].
  - exact (coeficiente_alfa_d_end self e_1 p_1 d_0 Hd).
  - exact (coeficiente_alfa_d_inner self e_1 p_1 d_0 Hd).
Qed.

(** An unknown position: the message is printed and the unassigned local is
    read. *)
Lemma coeficiente_alfa_d_invalid (self : EN1993_1_8.ResistenciaCalculo)
  (e_1 p_1 d_0 : R) (posicion : string) :
  0 < d_0 ->
  str_in posicion ["end"; "inner"]%string = false ->
  EN1993_1_8.coeficiente_alfa_d self e_1 p_1 d_0 posicion =
  (["Algo ha ido mal :("%string], Raise (UnboundLocalError "alfa_d")).
Proof.
  intros Hd Hp. apply str_in_two_false in Hp. destruct Hp as [H1 H2].
  unfold EN1993_1_8.coeficiente_alfa_d.
  destruct (Rle_dec d_0 0); [lra |].
  rewrite H1, H2. reflexivity.
Qed.

Lemma coeficiente_alfa_b_valid (self : EN1993_1_8.ResistenciaCalculo)
  (e_1 p_1 d_0 : R) (posicion : string) :
  0 < EN1993_1_8.f_u self ->
  0 < d_0 ->
  str_in posicion ["end"; "inner"]%string = true ->
  EN1993_1_8.coeficiente_alfa_b self e_1 p_1 d_0 posicion =
  ret (Rmin (Rmin (spec_alpha_d e_1 p_1 d_0 posicion)
                  (EN1993_1_8.f_ub self / EN1993_1_8.f_u self)) 1).
Proof.
  intros Hf Hd Hp. unfold EN1993_1_8.coeficiente_alfa_b.
  destruct (Rle_dec d_0 0); [lra |].
  rewrite coeficiente_alfa_d_valid by assumption.
  py_step. rewrite min3_Rmin. do 3 f_equal. lra.
Qed.

Lemma coeficiente_alfa_b_invalid (self : EN1993_1_8.ResistenciaCalculo)
  (e_1 p_1 d_0 : R) (posicion : string) :
  0 < d_0 ->
  str_in posicion ["end"; "inner"]%string = false ->
  EN1993_1_8.coeficiente_alfa_b self e_1 p_1 d_0 posicion =
  (["Algo ha ido mal :("%string], Raise (UnboundLocalError "alfa_d")).
Proof.
  intros Hd Hp. unfold EN1993_1_8.coeficiente_alfa_b.
  destruct (Rle_dec d_0 0); [lra |].
  rewrite coeficiente_alfa_d_invalid by assumption. reflexivity.
Qed.

(** C4: for a constructed bolt, d_0 > 0 and a position among "end" and
    "inner", [coeficiente_alfa_b] returns min(alpha_d, f_ub/f_u, 1.0); the
    value is at most 1.0 and at most f_ub/f_u, and where alpha_d exceeds both
    caps it is the smaller cap. *)
Theorem C4_coeficiente_alfa_b_capped
  (d A A_s : R) (grado : string) (f_ub t f_u g_M2 : R)
  (self : EN1993_1_8.ResistenciaCalculo)
  (e_1 p_1 d_0 : R) (posicion : string) :
  EN1993_1_8.init d A A_s grado f_ub t f_u g_M2 = ([], Return self) ->
  0 < d_0 ->
  str_in posicion ["end"; "inner"]%string = true ->
  exists alfa_b : R,
    EN1993_1_8.coeficiente_alfa_b self e_1 p_1 d_0 posicion =
      ([], Return alfa_b)
    /\ alfa_b = Rmin (Rmin (spec_alpha_d e_1 p_1 d_0 posicion) (f_ub / f_u)) 1
    /\ alfa_b <= 1
    /\ alfa_b <= f_ub / f_u
    /\ (1 < spec_alpha_d e_1 p_1 d_0 posicion ->
        f_ub / f_u < spec_alpha_d e_1 p_1 d_0 posicion ->
        alfa_b = Rmin (f_ub / f_u) 1).
Proof.
  intros Hinit Hd Hp.
  apply init_inv_1_8 in Hinit. destruct Hinit as [Hg [Hf ->]].
  eexists. split.
  - apply coeficiente_alfa_b_valid; simpl; assumption.
  - simpl. set (a := spec_alpha_d e_1 p_1 d_0 posicion). set (q := f_ub / f_u).
    unfold Rmin.
    destruct (Rle_dec a q); destruct (Rle_dec a 1); destruct (Rle_dec q 1);
      repeat split; intros; try reflexivity; lra.
Qed.

(** C4 at the boundary: e_1 = 132 and d_0 = 22 give alpha_d = 2, above both
    caps of the example bolt (1 and f_ub/f_u = 800/430). *)
Lemma C4_coeficiente_alfa_b_witness :
  EN1993_1_8.init 20 314 245 "8.8" 800 15 430 1.25 = ([], Return example_M20)
  /\ 0 < 22
  /\ str_in "end" ["end"; "inner"]%string = true
  /\ exists alfa_b : R,
       EN1993_1_8.coeficiente_alfa_b example_M20 132 60 22 "end" =
         ([], Return alfa_b)
       /\ alfa_b = Rmin (Rmin (spec_alpha_d 132 60 22 "end") (800 / 430)) 1
       /\ alfa_b <= 1
       /\ alfa_b <= 800 / 430
       /\ (1 < spec_alpha_d 132 60 22 "end" ->
           800 / 430 < spec_alpha_d 132 60 22 "end" ->
           alfa_b = Rmin (800 / 430) 1).
Proof.
  assert (Hinit :
    EN1993_1_8.init 20 314 245 "8.8" 800 15 430 1.25 = ([], Return example_M20)).
  { apply init_ok_1_8; lra. }
  assert (Hd : 0 < 22) by lra.
  split; [exact Hinit |]. split; [exact Hd |]. split; [reflexivity |].
  exact (C4_coeficiente_alfa_b_capped 20 314 245 "8.8"%string 800 15 430 1.25
           example_M20 132 60 22 "end"%string Hinit Hd eq_refl).
Defined.

(** ** EN 1993-1-8: rejected inputs of the coefficients *)

Lemma coeficientes_d_0_not_positive (self : EN1993_1_8.ResistenciaCalculo)
  (e p d_0 : R) (posicion : string) :
  d_0 <= 0 ->
  EN1993_1_8.coeficiente_k_1 self e p d_0 posicion =
    ([], Raise (ValueError EN1993_1_8.msg_d_0))
  /\ EN1993_1_8.coeficiente_alfa_d self e p d_0 posicion =
    ([], Raise (ValueError EN1993_1_8.msg_d_0))
  /\ EN1993_1_8.coeficiente_alfa_b self e p d_0 posicion =
    ([], Raise (ValueError EN1993_1_8.msg_d_0)).
Proof.
  intros Hd.
  unfold EN1993_1_8.coeficiente_k_1, EN1993_1_8.coeficiente_alfa_d,
    EN1993_1_8.coeficiente_alfa_b.
  destruct (Rle_dec d_0 0); [| lra].
  repeat split; reflexivity.
Qed.

Lemma coeficiente_k_1_valid (self : EN1993_1_8.ResistenciaCalculo)
  (e_2 p_2 d_0 : R) (posicion : string) :
  0 < d_0 ->
  str_in posicion ["edge"; "inner"]%string = true ->
  EN1993_1_8.coeficiente_k_1 self e_2 p_2 d_0 posicion =
  ret (spec_k_1 e_2 p_2 d_0 posicion).
Proof.
  intros Hd Hp. apply str_in_two in Hp. destruct Hp as [-> | ->].
  - exact (coeficiente_k_1_edge self e_2 p_2 d_0 Hd).
  - exact (coeficiente_k_1_inner self e_2 p_2 d_0 Hd).
Qed.

Lemma coeficiente_k_1_invalid (self : EN1993_1_8.ResistenciaCalculo)
  (e_2 p_2 d_0 : R) (posicion : string) :
  0 < d_0 ->
  str_in posicion ["edge"; "inner"]%string = false ->
  EN1993_1_8.coeficiente_k_1 self e_2 p_2 d_0 posicion =
  ([], Raise (ValueError EN1993_1_8.msg_posicion_k_1)).
Proof.
  intros Hd Hp. apply str_in_two_false in Hp. destruct Hp as [H1 H2].
  unfold EN1993_1_8.coeficiente_k_1.
  destruct (Rle_dec d_0 0); [lra |].
  rewrite H1, H2. reflexivity.
Qed.

(** C5: a hole diameter d_0 <= 0 makes the three coefficient functions raise
    the [ValueError] of the input check, and an unknown position makes
    [coeficiente_k_1] raise the [ValueError] of the position check; but an
    unknown position makes [coeficiente_alfa_d] print a line and fail with
    [UnboundLocalError], which is not a validation error.  The last part
    evaluates the example bolt at position "edge". *)
Theorem C5_coefficient_input_errors :
  (forall (self : EN1993_1_8.ResistenciaCalculo) (e p d_0 : R)
          (posicion : string),
      d_0 <= 0 ->
      EN1993_1_8.coeficiente_k_1 self e p d_0 posicion =
        ([], Raise (ValueError ":( d_0 debe ser positivo."))
      /\ EN1993_1_8.coeficiente_alfa_d self e p d_0 posicion =
        ([], Raise (ValueError ":( d_0 debe ser positivo."))
      /\ EN1993_1_8.coeficiente_alfa_b self e p d_0 posicion =
        ([], Raise (ValueError ":( d_0 debe ser positivo.")))
  /\
  (forall (self : EN1993_1_8.ResistenciaCalculo) (e_2 p_2 d_0 : R)
          (posicion : string),
      0 < d_0 ->
      str_in posicion ["edge"; "inner"]%string = false ->
      EN1993_1_8.coeficiente_k_1 self e_2 p_2 d_0 posicion =
        ([], Raise (ValueError EN1993_1_8.msg_posicion_k_1)))
  /\
  (forall (self : EN1993_1_8.ResistenciaCalculo) (e_1 p_1 d_0 : R)
          (posicion : string),
      0 < d_0 ->
      str_in posicion ["end"; "inner"]%string = false ->
      EN1993_1_8.coeficiente_alfa_d self e_1 p_1 d_0 posicion =
        (["Algo ha ido mal :("%string], Raise (UnboundLocalError "alfa_d"))
      /\ fails_with_ValueError
           (EN1993_1_8.coeficiente_alfa_d self e_1 p_1 d_0 posicion) = false)
  /\
  EN1993_1_8.coeficiente_alfa_d example_M20 30 60 22 "edge" =
    (["Algo ha ido mal :("%string], Raise (UnboundLocalError "alfa_d")).
Proof.
  split; [| split; [| split]].
  - intros self e p d_0 posicion Hd.
    exact (coeficientes_d_0_not_positive self e p d_0 posicion Hd).
  - intros self e_2 p_2 d_0 posicion Hd Hp.
    exact (coeficiente_k_1_invalid self e_2 p_2 d_0 posicion Hd Hp).
  - intros self e_1 p_1 d_0 posicion Hd Hp.
    rewrite (coeficiente_alfa_d_invalid self e_1 p_1 d_0 posicion Hd Hp).
    split; reflexivity.
  - apply coeficiente_alfa_d_invalid; [lra | reflexivity].
Qed.

(** ** EN 1993-1-8: bearing resistance and its two de-rated variants *)

Lemma capacidad_resistente_F_bRd_valid (self : EN1993_1_8.ResistenciaCalculo)
  (e_1 e_2 p_1 p_2 d_0 : R) (posicion_k1 posicion_ad : string) :
  0 < EN1993_1_8.g_M2 self ->
  0 < EN1993_1_8.f_u self ->
  0 < d_0 ->
  str_in posicion_k1 ["edge"; "inner"]%string = true ->
  str_in posicion_ad ["end"; "inner"]%string = true ->
  EN1993_1_8.capacidad_resistente_F_bRd self e_1 e_2 p_1 p_2 d_0
    posicion_k1 posicion_ad =
  ret (spec_k_1 e_2 p_2 d_0 posicion_k1
       * spec_alpha_b (spec_alpha_d e_1 p_1 d_0 posicion_ad)
           (EN1993_1_8.f_ub self) (EN1993_1_8.f_u self)
       * EN1993_1_8.f_u self * EN1993_1_8.d self * EN1993_1_8.t self
       / EN1993_1_8.g_M2 self).
Proof.
  intros Hg Hf Hd Hk Ha. unfold EN1993_1_8.capacidad_resistente_F_bRd.
  rewrite coeficiente_k_1_valid by assumption.
  rewrite bind_ret.
  rewrite coeficiente_alfa_b_valid by assumption.
  py_step. reflexivity.
Qed.

Lemma capacidad_resistente_F_bRd_invalid_k1
  (self : EN1993_1_8.ResistenciaCalculo)
  (e_1 e_2 p_1 p_2 d_0 : R) (posicion_k1 posicion_ad : string) :
  0 < d_0 ->
  str_in posicion_k1 ["edge"; "inner"]%string = false ->
  EN1993_1_8.capacidad_resistente_F_bRd self e_1 e_2 p_1 p_2 d_0
    posicion_k1 posicion_ad =
  ([], Raise (ValueError EN1993_1_8.msg_posicion_k_1)).
Proof.
  intros Hd Hk. unfold EN1993_1_8.capacidad_resistente_F_bRd.
  rewrite coeficiente_k_1_invalid by assumption. reflexivity.
Qed.

Lemma capacidad_resistente_F_bRd_invalid_ad
  (self : EN1993_1_8.ResistenciaCalculo)
  (e_1 e_2 p_1 p_2 d_0 : R) (posicion_k1 posicion_ad : string) :
  0 < d_0 ->
  str_in posicion_k1 ["edge"; "inner"]%string = true ->
  str_in posicion_ad ["end"; "inner"]%string = false ->
  EN1993_1_8.capacidad_resistente_F_bRd self e_1 e_2 p_1 p_2 d_0
    posicion_k1 posicion_ad =
  (["Algo ha ido mal :("%string], Raise (UnboundLocalError "alfa_d")).
Proof.
  intros Hd Hk Ha. unfold EN1993_1_8.capacidad_resistente_F_bRd.
  rewrite coeficiente_k_1_valid by assumption.
  rewrite bind_ret.
  rewrite coeficiente_alfa_b_invalid by assumption. reflexivity.
Qed.

(** C2: with d_0 > 0 and valid position tags the base bearing resistance is
    k_1 * alpha_b * f_u * d * t / gamma_M2 and the oversized-hole and
    slotted-hole variants return 0.8 and 0.6 times it; an unknown transverse
    position makes all three raise [ValueError]; but an unknown load-direction
    position makes the base and the oversized-hole operations print a line
    and fail with [UnboundLocalError], while the slotted-hole operation raises
    [ValueError]: the validation is not identical.  The last part evaluates
    the example bolt with load-direction position "edge". *)
Theorem C2_bearing_resistance_variants :
  (forall (d A A_s : R) (grado : string) (f_ub t f_u g_M2 : R)
          (self : EN1993_1_8.ResistenciaCalculo)
          (e_1 e_2 p_1 p_2 d_0 : R) (posicion_k1 posicion_ad : string),
      EN1993_1_8.init d A A_s grado f_ub t f_u g_M2 = ([], Return self) ->
      0 < d_0 ->
      str_in posicion_k1 ["edge"; "inner"]%string = true ->
      str_in posicion_ad ["end"; "inner"]%string = true ->
      let F_bRd :=
        spec_k_1 e_2 p_2 d_0 posicion_k1
        * spec_alpha_b (spec_alpha_d e_1 p_1 d_0 posicion_ad) f_ub f_u
        * f_u * d * t / g_M2 in
      EN1993_1_8.capacidad_resistente_F_bRd self e_1 e_2 p_1 p_2 d_0
        posicion_k1 posicion_ad = ([], Return F_bRd)
      /\ EN1993_1_8.capacidad_resistente_taladro_holgura_F_bRd self
           e_1 e_2 p_1 p_2 d_0 posicion_k1 posicion_ad =
         ([], Return (0.8 * F_bRd))
      /\ EN1993_1_8.capacidad_resistente_taladro_rasgado_F_bRd self
           e_1 e_2 p_1 p_2 d_0 posicion_k1 posicion_ad =
         ([], Return (0.6 * F_bRd)))
  /\
  (forall (self : EN1993_1_8.ResistenciaCalculo)
          (e_1 e_2 p_1 p_2 d_0 : R) (posicion_k1 posicion_ad : string),
      0 < d_0 ->
      str_in posicion_k1 ["edge"; "inner"]%string = false ->
      EN1993_1_8.capacidad_resistente_F_bRd self e_1 e_2 p_1 p_2 d_0
        posicion_k1 posicion_ad =
        ([], Raise (ValueError EN1993_1_8.msg_posicion_k_1))
      /\ EN1993_1_8.capacidad_resistente_taladro_holgura_F_bRd self
           e_1 e_2 p_1 p_2 d_0 posicion_k1 posicion_ad =
         ([], Raise (ValueError EN1993_1_8.msg_posicion_k_1))
      /\ EN1993_1_8.capacidad_resistente_taladro_rasgado_F_bRd self
           e_1 e_2 p_1 p_2 d_0 posicion_k1 posicion_ad =
         ([], Raise (ValueError EN1993_1_8.msg_rasgado_k1)))
  /\
  (forall (self : EN1993_1_8.ResistenciaCalculo)
          (e_1 e_2 p_1 p_2 d_0 : R) (posicion_k1 posicion_ad : string),
      0 < d_0 ->
      str_in posicion_k1 ["edge"; "inner"]%string = true ->
      str_in posicion_ad ["end"; "inner"]%string = false ->
      EN1993_1_8.capacidad_resistente_F_bRd self e_1 e_2 p_1 p_2 d_0
        posicion_k1 posicion_ad =
        (["Algo ha ido mal :("%string], Raise (UnboundLocalError "alfa_d"))
      /\ EN1993_1_8.capacidad_resistente_taladro_holgura_F_bRd self
           e_1 e_2 p_1 p_2 d_0 posicion_k1 posicion_ad =
         (["Algo ha ido mal :("%string], Raise (UnboundLocalError "alfa_d"))
      /\ EN1993_1_8.capacidad_resistente_taladro_rasgado_F_bRd self
           e_1 e_2 p_1 p_2 d_0 posicion_k1 posicion_ad =
         ([], Raise (ValueError EN1993_1_8.msg_rasgado_ad)))
  /\
  (EN1993_1_8.capacidad_resistente_F_bRd example_M20 30 30 60 60 22
     "edge" "edge" =
     (["Algo ha ido mal :("%string], Raise (UnboundLocalError "alfa_d"))
   /\ EN1993_1_8.capacidad_resistente_taladro_rasgado_F_bRd example_M20
        30 30 60 60 22 "edge" "edge" =
      ([], Raise (ValueError EN1993_1_8.msg_rasgado_ad))).
Proof.
  split; [| split; [| split]].
  - intros d A A_s grado f_ub t f_u g_M2 self e_1 e_2 p_1 p_2 d_0
      posicion_k1 posicion_ad Hinit Hd Hk Ha F_bRd.
    apply init_inv_1_8 in Hinit. destruct Hinit as [Hg [Hf ->]].
    assert (Hbase :
      EN1993_1_8.capacidad_resistente_F_bRd
        (EN1993_1_8.Build_ResistenciaCalculo d A A_s grado f_ub t f_u g_M2)
        e_1 e_2 p_1 p_2 d_0 posicion_k1 posicion_ad = ret F_bRd).
    { apply capacidad_resistente_F_bRd_valid; simpl; assumption. }
    unfold EN1993_1_8.capacidad_resistente_taladro_holgura_F_bRd,
      EN1993_1_8.capacidad_resistente_taladro_rasgado_F_bRd.
    rewrite Hk, Ha, Hbase. simpl negb. rewrite !bind_ret.
    repeat split; reflexivity.
  - intros self e_1 e_2 p_1 p_2 d_0 posicion_k1 posicion_ad Hd Hk.
    unfold EN1993_1_8.capacidad_resistente_taladro_holgura_F_bRd,
      EN1993_1_8.capacidad_resistente_taladro_rasgado_F_bRd.
    rewrite capacidad_resistente_F_bRd_invalid_k1 by assumption.
    rewrite Hk. repeat split; reflexivity.
  - intros self e_1 e_2 p_1 p_2 d_0 posicion_k1 posicion_ad Hd Hk Ha.
    unfold EN1993_1_8.capacidad_resistente_taladro_holgura_F_bRd,
      EN1993_1_8.capacidad_resistente_taladro_rasgado_F_bRd.
    rewrite capacidad_resistente_F_bRd_invalid_ad by assumption.
    rewrite Hk, Ha. repeat split; reflexivity.
  - split.
    + apply capacidad_resistente_F_bRd_invalid_ad; [lra | reflexivity ..].
    + reflexivity.
Qed.

(** ** EN 1993-1-8: punching *)

Lemma cos_deg_30 : cos (deg 30) = sqrt 3 / 2.
Proof.
  unfold deg. replace (30 * PI / 180) with (PI / 6) by lra. exact cos_PI6.
Qed.

Lemma sqrt_3_bounds : 1.73205 < sqrt 3 < 1.732051.
Proof.
  assert (Hpos : 0 <= sqrt 3) by apply sqrt_pos.
  assert (Hsq : sqrt 3 * sqrt 3 = 3) by (apply sqrt_sqrt; lra).
  split; nra.
Qed.

Lemma inv_cos_deg_30_bounds : 1.1547 <= 1 / cos (deg 30) <= 1.154702.
Proof.
  rewrite cos_deg_30.
  destruct sqrt_3_bounds as [Hlo Hhi].
  replace (1 / (sqrt 3 / 2)) with (2 / sqrt 3) by (field; lra).
  split.
  - apply Rmult_le_reg_r with (r := sqrt 3); [lra |].
    replace (2 / sqrt 3 * sqrt 3) with 2 by (field; lra). lra.
  - apply Rmult_le_reg_r with (r := sqrt 3); [lra |].
    replace (2 / sqrt 3 * sqrt 3) with 2 by (field; lra). lra.
Qed.

(** C9, as the specification states it, fails: at s = 1 the function returns
    1.07735, which is not 1 / cos(30 degrees) = 1.1547... *)
Lemma C9_d_m_counterexample :
  0 < 1 /\
  EN1993_1_8.media_de_distancias_entre_vertices_y_caras_planas_d_m
    example_M20 1 <> 1 / cos (deg 30).
Proof.
  split; [lra |].
  unfold EN1993_1_8.media_de_distancias_entre_vertices_y_caras_planas_d_m.
  destruct inv_cos_deg_30_bounds as [Hlo _]. lra.
Qed.

(** C9, amended: for every s, [media_de_distancias_entre_vertices_y_caras_planas_d_m]
    returns 1.07735 * s, the mean of the distance across flats s and the
    rounded distance across corners 1.1547 * s (for s > 0 within 1e-6 * s of
    the mean of s and s / cos(30 degrees)); and for a constructed bolt
    [resistencia_punzonamiento_B_pRd] returns
    0.6 * pi * d_m(s) * t * f_u / gamma_M2. *)
Theorem C9_d_m_and_punching_amended
  (d A A_s : R) (grado : string) (f_ub t f_u g_M2 : R)
  (self : EN1993_1_8.ResistenciaCalculo) (s : R) :
  EN1993_1_8.init d A A_s grado f_ub t f_u g_M2 = ([], Return self) ->
  let d_m :=
    EN1993_1_8.media_de_distancias_entre_vertices_y_caras_planas_d_m self s in
  d_m = 1.07735 * s
  /\ d_m = (s + 1.1547 * s) / 2
  /\ (0 < s -> Rabs (d_m - (s + s / cos (deg 30)) / 2) <= 0.000001 * s)
  /\ EN1993_1_8.resistencia_punzonamiento_B_pRd self s =
     ([], Return (0.6 * PI * d_m * t * f_u / g_M2)).
Proof.
  intros Hinit d_m.
  apply init_inv_1_8 in Hinit. destruct Hinit as [Hg [Hf ->]].
  subst d_m.
  unfold EN1993_1_8.resistencia_punzonamiento_B_pRd,
    EN1993_1_8.media_de_distancias_entre_vertices_y_caras_planas_d_m.
  simpl. repeat split.
  - lra.
  - intros Hs. destruct inv_cos_deg_30_bounds as [Hlo Hhi].
    set (c := 1 / cos (deg 30)) in *.
    replace (s / cos (deg 30)) with (s * c) by (unfold c; lra).
    apply Rabs_le. split; nra.
  - py_step. reflexivity.
Qed.

Lemma C9_d_m_and_punching_witness :
  EN1993_1_8.init 20 314 245 "8.8" 800 15 430 1.25 = ([], Return example_M20)
  /\
  let d_m :=
    EN1993_1_8.media_de_distancias_entre_vertices_y_caras_planas_d_m
      example_M20 30 in
  d_m = 1.07735 * 30
  /\ d_m = (30 + 1.1547 * 30) / 2
  /\ (0 < 30 -> Rabs (d_m - (30 + 30 / cos (deg 30)) / 2) <= 0.000001 * 30)
  /\ EN1993_1_8.resistencia_punzonamiento_B_pRd example_M20 30 =
     ([], Return (0.6 * PI * d_m * 15 * 430 / 1.25)).
Proof.
  assert (Hinit :
    EN1993_1_8.init 20 314 245 "8.8" 800 15 430 1.25 = ([], Return example_M20)).
  { apply init_ok_1_8; lra. }
  split; [exact Hinit |].
  exact (C9_d_m_and_punching_amended 20 314 245 "8.8"%string 800 15 430 1.25
           example_M20 30 Hinit).
Defined.

(** ** EN 1993-1-3: validity ranges and the net section *)

Lemma rango_validez_defaults (d_0 : R) :
  let rv := EN1993_1_3.Build_RangoValidez d_0 in
  EN1993_1_3.rango_validez_e_1 rv = 1.0 * d_0
  /\ EN1993_1_3.rango_validez_e_2 rv = 1.5 * d_0
  /\ EN1993_1_3.rango_validez_p_1 rv = 3.0 * d_0
  /\ EN1993_1_3.rango_validez_p_2 rv = 3.0 * d_0.
Proof.
  unfold EN1993_1_3.rango_validez_e_1, EN1993_1_3.rango_validez_e_2,
    EN1993_1_3.rango_validez_p_1, EN1993_1_3.rango_validez_p_2.
  simpl. repeat split; lra.
Qed.

Lemma coeficiente_u_spec (self : EN1993_1_3.ResistenciasDisenoTornillos) :
  EN1993_1_3.coeficiente_u self =
  Rmin (2 * (1.5 * EN1993_1_3.d_0 self)) (3 * EN1993_1_3.d_0 self).
Proof.
  unfold EN1993_1_3.coeficiente_u, EN1993_1_3.rango_validez_e_2,
    EN1993_1_3.rango_validez_p_2.
  simpl. apply min2_Rmin.
Qed.

Lemma coeficiente_u_value (self : EN1993_1_3.ResistenciasDisenoTornillos) :
  EN1993_1_3.coeficiente_u self = 3 * EN1993_1_3.d_0 self.
Proof.
  rewrite coeficiente_u_spec. unfold Rmin.
  destruct (Rle_dec (2 * (1.5 * EN1993_1_3.d_0 self))
              (3 * EN1993_1_3.d_0 self)); lra.
Qed.

Lemma area_transversal_neta_value
  (self : EN1993_1_3.ResistenciasDisenoTornillos) :
  EN1993_1_3.area_transversal_neta self =
  2 * EN1993_1_3.d_0 self * EN1993_1_3.t self.
Proof.
  unfold EN1993_1_3.area_transversal_neta, EN1993_1_3.rango_validez_p_2.
  simpl. lra.
Qed.

Lemma capacidad_resistente_area_transversal_neta_F_nRd_spec
  (self : EN1993_1_3.ResistenciasDisenoTornillos) :
  EN1993_1_3.d_0 self <> 0 ->
  EN1993_1_3.g_M2 self <> 0 ->
  let d_0 := EN1993_1_3.d_0 self in
  let e_2 := 1.5 * d_0 in
  let p_2 := 3 * d_0 in
  let u := Rmin (2 * e_2) p_2 in
  let A_net := (p_2 - d_0) * EN1993_1_3.t self in
  let F r :=
    spec_F_nRd r d_0 u A_net (EN1993_1_3.f_u self) (EN1993_1_3.g_M2 self) in
  EN1993_1_3.coeficiente_u self = u
  /\ EN1993_1_3.area_transversal_neta self = A_net
  /\ EN1993_1_3.capacidad_resistente_area_transversal_neta_F_nRd self =
     ([], Return [F 2; F 1; F (1 / 2); F (1 / 3)]).
Proof.
  intros Hd Hg d_0 e_2 p_2 u A_net F.
  assert (Hu : EN1993_1_3.coeficiente_u self = u).
  { apply coeficiente_u_spec. }
  assert (Hu0 : u <> 0).
  { rewrite <- Hu, coeficiente_u_value. lra. }
  assert (HA : EN1993_1_3.area_transversal_neta self = A_net).
  { reflexivity. }
  split; [exact Hu |]. split; [exact HA |].
  unfold EN1993_1_3.capacidad_resistente_area_transversal_neta_F_nRd,
    EN1993_1_3.relacion_tornillos_seccion_neta_entre_tornillos_totales.
  rewrite Hu, HA.
  rewrite (tuple_of_pure _
             (fun ri => (1 + 3 * ri * (d_0 / u - 0.3)) * A_net
                        * EN1993_1_3.f_u self / EN1993_1_3.g_M2 self)).
  2:{ intros ri. rewrite (truediv_ok _ u) by exact Hu0. rewrite bind_ret.
      apply truediv_ok. exact Hg. }
  rewrite bind_ret.
  rewrite (truediv_ok _ (EN1993_1_3.g_M2 self)) by exact Hg.
  rewrite bind_ret. simpl map. rewrite !min2_Rmin.
  unfold ret, F, spec_F_nRd.
  replace 2.0 with 2 by lra. replace 1.0 with 1 by lra.
  replace 0.5 with (1 / 2) by lra.
  reflexivity.
Qed.

(** C8: when the divisions are defined (d_0 <> 0, gamma_M2 <> 0),
    [capacidad_resistente_area_transversal_neta_F_nRd] returns exactly four
    values, for the ratios 2, 1, 1/2 and 1/3 in this order, each
    min((1 + 3 r (d_0/u - 0.3)) A_net f_u / gamma_M2, A_net f_u / gamma_M2)
    with u = min(2 e_2, p_2), e_2 = 1.5 d_0, p_2 = 3 d_0 and
    A_net = (p_2 - d_0) t. *)
Theorem C8_net_section_four_values
  (self : EN1993_1_3.ResistenciasDisenoTornillos) :
  EN1993_1_3.d_0 self <> 0 ->
  EN1993_1_3.g_M2 self <> 0 ->
  let d_0 := EN1993_1_3.d_0 self in
  let e_2 := 1.5 * d_0 in
  let p_2 := 3 * d_0 in
  let u := Rmin (2 * e_2) p_2 in
  let A_net := (p_2 - d_0) * EN1993_1_3.t self in
  let F r :=
    spec_F_nRd r d_0 u A_net (EN1993_1_3.f_u self) (EN1993_1_3.g_M2 self) in
  EN1993_1_3.coeficiente_u self = u
  /\ EN1993_1_3.area_transversal_neta self = A_net
  /\ EN1993_1_3.capacidad_resistente_area_transversal_neta_F_nRd self =
     ([], Return [F 2; F 1; F (1 / 2); F (1 / 3)])
  /\ (forall F_nRd : list R,
         result (EN1993_1_3.capacidad_resistente_area_transversal_neta_F_nRd
                   self) = Return F_nRd ->
         length F_nRd = 4%nat).
Proof.
  intros Hd Hg d_0 e_2 p_2 u A_net F.
  destruct (capacidad_resistente_area_transversal_neta_F_nRd_spec self Hd Hg)
    as [Hu [HA HF]].
  split; [exact Hu |]. split; [exact HA |]. split; [exact HF |].
  intros F_nRd Hres. rewrite HF in Hres. unfold result in Hres. simpl in Hres.
  injection Hres as <-. reflexivity.
Qed.

Lemma C8_net_section_witness :
  EN1993_1_3.d_0 example_M12 <> 0
  /\ EN1993_1_3.g_M2 example_M12 <> 0
  /\
  let d_0 := EN1993_1_3.d_0 example_M12 in
  let e_2 := 1.5 * d_0 in
  let p_2 := 3 * d_0 in
  let u := Rmin (2 * e_2) p_2 in
  let A_net := (p_2 - d_0) * EN1993_1_3.t example_M12 in
  let F r :=
    spec_F_nRd r d_0 u A_net (EN1993_1_3.f_u example_M12)
      (EN1993_1_3.g_M2 example_M12) in
  EN1993_1_3.coeficiente_u example_M12 = u
  /\ EN1993_1_3.area_transversal_neta example_M12 = A_net
  /\ EN1993_1_3.capacidad_resistente_area_transversal_neta_F_nRd example_M12 =
     ([], Return [F 2; F 1; F (1 / 2); F (1 / 3)])
  /\ (forall F_nRd : list R,
         result (EN1993_1_3.capacidad_resistente_area_transversal_neta_F_nRd
                   example_M12) = Return F_nRd ->
         length F_nRd = 4%nat).
Proof.
  assert (Hd : EN1993_1_3.d_0 example_M12 <> 0) by (simpl; lra).
  assert (Hg : EN1993_1_3.g_M2 example_M12 <> 0) by (simpl; lra).
  split; [exact Hd |]. split; [exact Hg |].
  exact (C8_net_section_four_values example_M12 Hd Hg).
Defined.

Lemma net_section_candidate_exceeds (r d_0 t f_u g_M2 : R) :
  0 < r -> 0 < d_0 -> 0 < t -> 0 < f_u -> 0 < g_M2 ->
  2 * d_0 * t * f_u / g_M2 <
  (1 + 3 * r * (d_0 / (3 * d_0) - 0.3)) * (2 * d_0 * t) * f_u / g_M2.
Proof.
  intros Hr Hd Ht Hf Hg.
  replace (d_0 / (3 * d_0)) with (1 / 3) by (field; lra).
  assert (Hc : 0 < 2 * d_0 * t * f_u / g_M2).
  { apply Rdiv_lt_0_compat; [| exact Hg].
    repeat apply Rmult_lt_0_compat; lra. }
  replace (1 / 3 - 0.3) with (1 / 30) by lra.
  replace ((1 + 3 * r * (1 / 30)) * (2 * d_0 * t) * f_u / g_M2)
    with ((1 + r / 10) * (2 * d_0 * t * f_u / g_M2)) by (field; lra).
  nra.
Qed.

(** C10: with the validity-range defaults u = 3 d_0 and A_net = 2 d_0 t; for
    d_0, t, f_u, gamma_M2 > 0 the ratio-dependent candidate strictly exceeds
    A_net f_u / gamma_M2 for every positive ratio, and the four values that
    [capacidad_resistente_area_transversal_neta_F_nRd] returns all equal
    A_net f_u / gamma_M2. *)
Theorem C10_net_section_ratio_independent
  (d A_s : R) (grado : string) (d_0 t f_u g_M2 : R) :
  0 < d_0 -> 0 < t -> 0 < f_u -> 0 < g_M2 ->
  let self := EN1993_1_3.init d A_s grado d_0 t f_u g_M2 in
  let u := EN1993_1_3.coeficiente_u self in
  let A_net := EN1993_1_3.area_transversal_neta self in
  let cap := A_net * f_u / g_M2 in
  u = 3 * d_0
  /\ A_net = 2 * d_0 * t
  /\ (forall r : R,
         0 < r -> cap < (1 + 3 * r * (d_0 / u - 0.3)) * A_net * f_u / g_M2)
  /\ EN1993_1_3.capacidad_resistente_area_transversal_neta_F_nRd self =
     ([], Return [cap; cap; cap; cap]).
Proof.
  intros Hd Ht Hf Hg self u A_net cap.
  assert (Hu : u = 3 * d_0).
  { exact (coeficiente_u_value self). }
  assert (HA : A_net = 2 * d_0 * t).
  { exact (area_transversal_neta_value self). }
  assert (Hex : forall r : R,
             0 < r -> cap < (1 + 3 * r * (d_0 / u - 0.3)) * A_net * f_u / g_M2).
  { intros r Hr. unfold cap. rewrite Hu, HA.
    apply net_section_candidate_exceeds; assumption. }
  split; [exact Hu |]. split; [exact HA |]. split; [exact Hex |].
  destruct (capacidad_resistente_area_transversal_neta_F_nRd_spec self)
    as [Hu' [HA' HF]]; [simpl; lra | simpl; lra |].
  rewrite <- Hu', <- HA' in HF. rewrite HF. unfold ret. do 2 f_equal.
  assert (Hmin : forall r : R,
             0 < r ->
             spec_F_nRd r d_0 u A_net f_u g_M2 = cap).
  { intros r Hr. unfold spec_F_nRd. fold cap.
    specialize (Hex r Hr). unfold Rmin.
    destruct (Rle_dec ((1 + 3 * r * (d_0 / u - 0.3)) * A_net * f_u / g_M2) cap);
      [lra | reflexivity]. }
  change ([spec_F_nRd 2 d_0 u A_net f_u g_M2;
           spec_F_nRd 1 d_0 u A_net f_u g_M2;
           spec_F_nRd (1 / 2) d_0 u A_net f_u g_M2;
           spec_F_nRd (1 / 3) d_0 u A_net f_u g_M2] = [cap; cap; cap; cap]).
  rewrite !Hmin by lra. reflexivity.
Qed.

Lemma C10_net_section_witness :
  0 < 13 /\ 0 < 2 /\ 0 < 450 /\ 0 < 1.25 /\
  let self := EN1993_1_3.init 12 84 "8.8" 13 2 450 1.25 in
  let u := EN1993_1_3.coeficiente_u self in
  let A_net := EN1993_1_3.area_transversal_neta self in
  let cap := A_net * 450 / 1.25 in
  u = 3 * 13
  /\ A_net = 2 * 13 * 2
  /\ (forall r : R,
         0 < r -> cap < (1 + 3 * r * (13 / u - 0.3)) * A_net * 450 / 1.25)
  /\ EN1993_1_3.capacidad_resistente_area_transversal_neta_F_nRd self =
     ([], Return [cap; cap; cap; cap]).
Proof.
  assert (H1 : 0 < 13) by lra.
  assert (H2 : 0 < 2) by lra.
  assert (H3 : 0 < 450) by lra.
  assert (H4 : 0 < 1.25) by lra.
  repeat (split; [assumption |]).
  exact (C10_net_section_ratio_independent 12 84 "8.8"%string 13 2 450 1.25
           H1 H2 H3 H4).
Defined.

(** ** Grade strings: [split] and [int] *)

Example split_dot_1_examples :
  split_dot_1 "8.8" = ["8"; "8"]%string
  /\ split_dot_1 "10.9" = ["10"; "9"]%string
  /\ split_dot_1 "a.b.c" = ["a"; "b.c"]%string
  /\ split_dot_1 ".5" = [""; "5"]%string
  /\ split_dot_1 "88" = ["88"]%string
  /\ split_dot_1 "" = [""]%string.
Proof. repeat split; reflexivity. Qed.

Example int_examples :
  int "8" = ret 8%Z
  /\ int "10" = ret 10%Z
  /\ int "008" = ret 8%Z
  /\ int " 8 " = ret 8%Z
  /\ int "+8" = ret 8%Z
  /\ int "-8" = ret (-8)%Z
  /\ int "8_8" = ret 88%Z
  /\ returns (int "") = false
  /\ returns (int "+ 8") = false
  /\ returns (int "_8") = false
  /\ returns (int "8_") = false
  /\ returns (int "8__8") = false
  /\ returns (int "8.8") = false
  /\ returns (int "abc") = false.
Proof. repeat split; reflexivity. Qed.

Lemma split_dot_1_shape (s : string) :
  (exists hd : string, split_dot_1 s = [hd])
  \/ (exists hd tl : string, split_dot_1 s = [hd; tl]).
Proof.
  induction s as [| c s IH]; simpl.
  - left. eexists. reflexivity.
  - destruct (Ascii.eqb c "."%char).
    + right. do 2 eexists. reflexivity.
    + destruct IH as [[hd ->] | [hd [tl ->]]].
      * left. eexists. reflexivity.
      * right. do 2 eexists. reflexivity.
Qed.

Lemma getitem_split_dot_1_2 (s : string) :
  getitem (split_dot_1 s) 2 = raise (IndexError "list index out of range").
Proof.
  destruct (split_dot_1_shape s) as [[hd ->] | [hd [tl ->]]]; reflexivity.
Qed.

Lemma getitem_split_dot_1_0 (s : string) :
  exists hd : string, getitem (split_dot_1 s) 0 = ret hd.
Proof.
  destruct (split_dot_1_shape s) as [[hd ->] | [hd [tl ->]]];
    eexists; reflexivity.
Qed.

Lemma int_cases (s : string) :
  (exists n : Z, int s = ret n)
  \/ int s = raise (ValueError "invalid literal for int() with base 10").
Proof.
  unfold int. destruct (parse_int (list_ascii_of_string s)) as [n |].
  - left. exists n. reflexivity.
  - right. reflexivity.
Qed.

Lemma is_digit_not_dot (c : ascii) :
  is_digit c = true -> Ascii.eqb c "."%char = false.
Proof.
  intros H. destruct (Ascii.eqb_spec c "."%char) as [-> | _];
    [discriminate H | reflexivity].
Qed.

Lemma is_digit_not_sign (c : ascii) :
  is_digit c = true ->
  Ascii.eqb c "-"%char = false /\ Ascii.eqb c "+"%char = false.
Proof.
  intros H. split.
  - destruct (Ascii.eqb_spec c "-"%char) as [-> | _];
      [discriminate H | reflexivity].
  - destruct (Ascii.eqb_spec c "+"%char) as [-> | _];
      [discriminate H | reflexivity].
Qed.

Lemma is_digit_not_space (c : ascii) :
  is_digit c = true -> is_space c = false.
Proof.
  unfold is_digit, digit_of, is_space.
  set (n := nat_of_ascii c).
  destruct ((48 <=? n)%nat && (n <=? 57)%nat)%bool eqn:E; [| discriminate].
  intros _. apply andb_true_iff in E. destruct E as [E1 E2].
  apply Nat.leb_le in E1. apply Nat.leb_le in E2.
  assert (H1 : (n =? 32)%nat = false) by (apply Nat.eqb_neq; lia).
  assert (H2 : (n <=? 13)%nat = false) by (apply Nat.leb_gt; lia).
  rewrite H1, H2, andb_false_r. reflexivity.
Qed.

Lemma split_dot_1_numeral (l : list ascii) (rest : string) :
  forallb is_digit l = true ->
  split_dot_1 (string_of_list_ascii l ++ String "."%char rest) =
  [string_of_list_ascii l; rest].
Proof.
  induction l as [| c l IH]; simpl; intros H.
  - reflexivity.
  - apply andb_true_iff in H. destruct H as [Hc Hl].
    rewrite (is_digit_not_dot c Hc), (IH Hl). reflexivity.
Qed.

Lemma lstrip_digit (l : list ascii) :
  match l with
  | c :: _ => is_digit c = true
  | [] => True
  end ->
  lstrip l = l.
Proof.
  destruct l as [| c l]; simpl; [reflexivity |].
  intros Hc. rewrite (is_digit_not_space c Hc). reflexivity.
Qed.

Lemma strip_numeral (l : list ascii) :
  forallb is_digit l = true -> strip l = l.
Proof.
  intros H. unfold strip.
  rewrite (lstrip_digit l).
  2:{ destruct l as [| c l]; [exact I |].
      simpl in H. apply andb_true_iff in H. tauto. }
  rewrite (lstrip_digit (rev l)).
  - apply rev_involutive.
  - assert (Hrev : forallb is_digit (rev l) = true).
    { rewrite forallb_forall in *. intros x Hx. apply H.
      apply in_rev. exact Hx. }
    destruct (rev l) as [| c l']; [exact I |].
    simpl in Hrev. apply andb_true_iff in Hrev. tauto.
Qed.

Lemma parse_digits_numeral (l : list ascii) (acc : Z) (prev : bool) :
  forallb is_digit l = true ->
  l <> [] \/ prev = true ->
  parse_digits acc prev l = Some (numeral_value_from acc l).
Proof.
  revert acc prev. induction l as [| c l IH]; intros acc prev H Hne.
  - destruct Hne as [Hne | ->]; [contradiction | reflexivity].
  - simpl in H. apply andb_true_iff in H. destruct H as [Hc Hl].
    unfold is_digit in Hc. simpl. unfold numeral_value_from. simpl.
    destruct (digit_of c) as [k |]; [| discriminate].
    apply IH; [exact Hl | right; reflexivity].
Qed.

Lemma int_numeral (s : string) :
  is_numeral s = true -> int s = ret (numeral_value s).
Proof.
  unfold is_numeral, int, numeral_value, parse_int.
  destruct (list_ascii_of_string s) as [| c l] eqn:Hl; [discriminate |].
  intros H. rewrite (strip_numeral (c :: l) H).
  assert (Hc : is_digit c = true).
  { simpl in H. apply andb_true_iff in H. tauto. }
  destruct (is_digit_not_sign c Hc) as [-> ->].
  rewrite (parse_digits_numeral (c :: l) 0 false H); [reflexivity |].
  left. discriminate.
Qed.

(** ** EN 1993-1-3: strengths parsed from the grade string *)

Lemma resistencia_ultima_traccion_tornillo_f_ub_cases
  (self : EN1993_1_3.ResistenciasDisenoTornillos) :
  (exists n1 : Z,
      EN1993_1_3.resistencia_ultima_traccion_tornillo_f_ub self =
      ret (n1 * 100)%Z)
  \/ EN1993_1_3.resistencia_ultima_traccion_tornillo_f_ub self =
     raise (ValueError "invalid literal for int() with base 10").
Proof.
  unfold EN1993_1_3.resistencia_ultima_traccion_tornillo_f_ub.
  destruct (getitem_split_dot_1_0 (EN1993_1_3.grado self)) as [hd ->].
  rewrite bind_ret.
  destruct (int_cases hd) as [[n ->] | ->].
  - left. exists n. rewrite bind_ret. reflexivity.
  - right. reflexivity.
Qed.

Lemma limite_elastico_tornillo_f_yb_cases
  (self : EN1993_1_3.ResistenciasDisenoTornillos) :
  EN1993_1_3.limite_elastico_tornillo_f_yb self =
    raise (IndexError "list index out of range")
  \/ EN1993_1_3.limite_elastico_tornillo_f_yb self =
     raise (ValueError "invalid literal for int() with base 10").
Proof.
  unfold EN1993_1_3.limite_elastico_tornillo_f_yb.
  destruct (getitem_split_dot_1_0 (EN1993_1_3.grado self)) as [hd ->].
  rewrite bind_ret.
  destruct (int_cases hd) as [[n ->] | ->].
  - left. rewrite bind_ret, getitem_split_dot_1_2. reflexivity.
  - right. reflexivity.
Qed.

Lemma grade_numeral_head (self : EN1993_1_3.ResistenciasDisenoTornillos)
  (n1 n2 : string) :
  EN1993_1_3.grado self = (n1 ++ "." ++ n2)%string ->
  is_numeral n1 = true ->
  getitem (split_dot_1 (EN1993_1_3.grado self)) 0 = ret n1
  /\ int n1 = ret (numeral_value n1).
Proof.
  intros Hg Hn. split; [| exact (int_numeral n1 Hn)].
  rewrite Hg. rewrite <- (string_of_list_ascii_of_string n1).
  assert (Hd : forallb is_digit (list_ascii_of_string n1) = true).
  { unfold is_numeral in Hn.
    destruct (list_ascii_of_string n1); [discriminate | exact Hn]. }
  change (string_of_list_ascii (list_ascii_of_string n1) ++ "." ++ n2)%string
    with (string_of_list_ascii (list_ascii_of_string n1)
          ++ String "."%char n2)%string.
  rewrite (split_dot_1_numeral _ n2 Hd). reflexivity.
Qed.

(** C7: [resistencia_ultima_traccion_tornillo_f_ub] returns n1 * 100 for a
    grade "n1.n2" whose n1 is a decimal numeral, 800 for grade "8.8"; but
    [limite_elastico_tornillo_f_yb] reads item 2 of a list of at most two
    items: it raises [IndexError] for grade "8.8" and for every such grade,
    and returns for no grade at all. *)
Theorem C7_grade_string_strengths :
  EN1993_1_3.limite_elastico_tornillo_f_yb example_M12 =
    ([], Raise (IndexError "list index out of range"))
  /\ EN1993_1_3.resistencia_ultima_traccion_tornillo_f_ub example_M12 =
    ([], Return 800%Z)
  /\ (forall self : EN1993_1_3.ResistenciasDisenoTornillos,
         returns (EN1993_1_3.limite_elastico_tornillo_f_yb self) = false)
  /\ (forall (self : EN1993_1_3.ResistenciasDisenoTornillos)
             (n1 n2 : string),
         EN1993_1_3.grado self = (n1 ++ "." ++ n2)%string ->
         is_numeral n1 = true ->
         EN1993_1_3.resistencia_ultima_traccion_tornillo_f_ub self =
           ([], Return (numeral_value n1 * 100)%Z)
         /\ EN1993_1_3.limite_elastico_tornillo_f_yb self =
           ([], Raise (IndexError "list index out of range"))).
Proof.
  split; [reflexivity |]. split; [reflexivity |]. split.
  - intros self.
    destruct (limite_elastico_tornillo_f_yb_cases self) as [-> | ->];
      reflexivity.
  - intros self n1 n2 Hg Hn.
    destruct (grade_numeral_head self n1 n2 Hg Hn) as [H0 Hint].
    unfold EN1993_1_3.resistencia_ultima_traccion_tornillo_f_ub,
      EN1993_1_3.limite_elastico_tornillo_f_yb.
    rewrite H0, !bind_ret, Hint, !bind_ret, getitem_split_dot_1_2.
    split; reflexivity.
Qed.

(** ** Grades outside the enumerated set *)

Lemma invalid_grade_branches (g : string) :
  str_in g valid_grades = false ->
  str_in g ["4.6"; "5.6"; "8.8"]%string = false
  /\ str_in g ["4.8"; "5.8"; "6.8"; "10.9"]%string = false.
Proof.
  unfold str_in, valid_grades. simpl.
  rewrite !orb_false_iff. tauto.
Qed.

Lemma coeficiente_cortante_alfa_v_invalid
  (self : EN1993_1_8.ResistenciaCalculo) :
  str_in (EN1993_1_8.grado self) valid_grades = false ->
  EN1993_1_8.coeficiente_cortante_alfa_v self true =
  ([], Raise (UnboundLocalError "alfa_v")).
Proof.
  intros Hg. destruct (invalid_grade_branches _ Hg) as [H1 H2].
  unfold EN1993_1_8.coeficiente_cortante_alfa_v. rewrite H1, H2.
  reflexivity.
Qed.

Lemma resistencia_cortante_F_vRd_invalid
  (self : EN1993_1_3.ResistenciasDisenoTornillos) :
  str_in (EN1993_1_3.grado self) valid_grades = false ->
  (exists n1 : Z,
      EN1993_1_3.resistencia_ultima_traccion_tornillo_f_ub self =
        ([], Return (n1 * 100)%Z)
      /\ EN1993_1_3.resistencia_cortante_F_vRd self =
        (["Algo no cuadra."%string], Raise (UnboundLocalError "F_vRd")))
  \/
  (EN1993_1_3.resistencia_ultima_traccion_tornillo_f_ub self =
     ([], Raise (ValueError "invalid literal for int() with base 10"))
   /\ EN1993_1_3.resistencia_cortante_F_vRd self =
     ([], Raise (ValueError "invalid literal for int() with base 10"))).
Proof.
  intros Hg. destruct (invalid_grade_branches _ Hg) as [H1 H2].
  unfold EN1993_1_3.resistencia_cortante_F_vRd. rewrite H1, H2.
  destruct (resistencia_ultima_traccion_tornillo_f_ub_cases self)
    as [[n Hn] | He].
  - left. exists n. rewrite Hn. split; reflexivity.
  - right. rewrite He. split; reflexivity.
Qed.

(** C6: for a grade outside the enumerated set no grade error is raised.
    With the shear plane through the thread [coeficiente_cortante_alfa_v]
    (and so [resistencia_cortante]) fails with [UnboundLocalError]; in the
    EN 1993-1-3 engine [resistencia_cortante_F_vRd] prints a line and fails
    with [UnboundLocalError] whenever the strength parses, and otherwise
    passes on the [ValueError] of [int].  The last part evaluates both at
    grade "7.7". *)
Theorem C6_unknown_grade_not_rejected :
  (forall self : EN1993_1_8.ResistenciaCalculo,
      str_in (EN1993_1_8.grado self) valid_grades = false ->
      EN1993_1_8.coeficiente_cortante_alfa_v self true =
        ([], Raise (UnboundLocalError "alfa_v"))
      /\ EN1993_1_8.resistencia_cortante self true =
        ([], Raise (UnboundLocalError "alfa_v"))
      /\ EN1993_1_8.coeficiente_cortante_alfa_v self false =
        ([], Return 0.6))
  /\
  (forall self : EN1993_1_3.ResistenciasDisenoTornillos,
      str_in (EN1993_1_3.grado self) valid_grades = false ->
      (exists n1 : Z,
          EN1993_1_3.resistencia_ultima_traccion_tornillo_f_ub self =
            ([], Return (n1 * 100)%Z)
          /\ EN1993_1_3.resistencia_cortante_F_vRd self =
            (["Algo no cuadra."%string], Raise (UnboundLocalError "F_vRd")))
      \/
      (EN1993_1_3.resistencia_ultima_traccion_tornillo_f_ub self =
         ([], Raise (ValueError "invalid literal for int() with base 10"))
       /\ EN1993_1_3.resistencia_cortante_F_vRd self =
         ([], Raise (ValueError "invalid literal for int() with base 10"))))
  /\
  (EN1993_1_8.coeficiente_cortante_alfa_v example_M20_grade_7_7 true =
     ([], Raise (UnboundLocalError "alfa_v"))
   /\ EN1993_1_3.resistencia_cortante_F_vRd example_M12_grade_7_7 =
     (["Algo no cuadra."%string], Raise (UnboundLocalError "F_vRd"))).
Proof.
  split; [| split].
  - intros self Hg.
    pose proof (coeficiente_cortante_alfa_v_invalid self Hg) as Ha.
    split; [exact Ha |]. split; [| reflexivity].
    unfold EN1993_1_8.resistencia_cortante. rewrite Ha. reflexivity.
  - exact resistencia_cortante_F_vRd_invalid.
  - split; reflexivity.
Qed.

(** * Further properties of the engines *)

(** ** Calls that cannot end in [ZeroDivisionError] *)

Lemma nzd_truediv (x y : R) :
  y <> 0 -> raises_ZeroDivisionError (truediv x y) = false.
Proof. intros Hy. rewrite truediv_ok by exact Hy. reflexivity. Qed.

Lemma nzd_local {A : Type} (name : string) (v : option A) :
  raises_ZeroDivisionError (local name v) = false.
Proof. destruct v; reflexivity. Qed.

Lemma nzd_bind {A B : Type} (m : py A) (k : A -> py B) :
  raises_ZeroDivisionError m = false ->
  (forall a : A, raises_ZeroDivisionError (k a) = false) ->
  raises_ZeroDivisionError (bind m k) = false.
Proof.
  intros Hm Hk. destruct m as [out [a | e]].
  - specialize (Hk a). unfold raises_ZeroDivisionError, result in *.
    simpl. destruct (k a) as [out' r]. exact Hk.
  - exact Hm.
Qed.

Lemma nzd_coeficiente_k_1 (self : EN1993_1_8.ResistenciaCalculo)
  (e_2 p_2 d_0 : R) (posicion : string) :
  raises_ZeroDivisionError
    (EN1993_1_8.coeficiente_k_1 self e_2 p_2 d_0 posicion) = false.
Proof.
  unfold EN1993_1_8.coeficiente_k_1.
  destruct (Rle_dec d_0 0); [reflexivity |].
  destruct (posicion =? "edge")%string.
  - apply nzd_bind; [apply nzd_truediv; lra | intros q_11].
    apply nzd_bind; [apply nzd_truediv; lra | intros q_12]. reflexivity.
  - destruct (posicion =? "inner")%string; [| reflexivity].
    apply nzd_bind; [apply nzd_truediv; lra | intros q_11]. reflexivity.
Qed.

Lemma nzd_coeficiente_alfa_d (self : EN1993_1_8.ResistenciaCalculo)
  (e_1 p_1 d_0 : R) (posicion : string) :
  raises_ZeroDivisionError
    (EN1993_1_8.coeficiente_alfa_d self e_1 p_1 d_0 posicion) = false.
Proof.
  unfold EN1993_1_8.coeficiente_alfa_d.
  destruct (Rle_dec d_0 0); [reflexivity |].
  apply nzd_bind; [| intros v; apply nzd_local].
  destruct (posicion =? "end")%string.
  - apply nzd_bind; [apply nzd_truediv; lra | intros q]. reflexivity.
  - destruct (posicion =? "inner")%string; [| reflexivity].
    apply nzd_bind; [apply nzd_truediv; lra | intros q]. reflexivity.
Qed.

Lemma nzd_coeficiente_alfa_b (self : EN1993_1_8.ResistenciaCalculo)
  (e_1 p_1 d_0 : R) (posicion : string) :
  0 < EN1993_1_8.f_u self ->
  raises_ZeroDivisionError
    (EN1993_1_8.coeficiente_alfa_b self e_1 p_1 d_0 posicion) = false.
Proof.
  intros Hf. unfold EN1993_1_8.coeficiente_alfa_b.
  destruct (Rle_dec d_0 0); [reflexivity |].
  apply nzd_bind; [apply nzd_coeficiente_alfa_d | intros alfa_d].
  apply nzd_bind; [apply nzd_truediv; lra | intros q]. reflexivity.
Qed.

Lemma nzd_capacidad_resistente_F_bRd (self : EN1993_1_8.ResistenciaCalculo)
  (e_1 e_2 p_1 p_2 d_0 : R) (posicion_k1 posicion_ad : string) :
  0 < EN1993_1_8.g_M2 self ->
  0 < EN1993_1_8.f_u self ->
  raises_ZeroDivisionError
    (EN1993_1_8.capacidad_resistente_F_bRd self e_1 e_2 p_1 p_2 d_0
       posicion_k1 posicion_ad) = false.
Proof.
  intros Hg Hf. unfold EN1993_1_8.capacidad_resistente_F_bRd.
  apply nzd_bind; [apply nzd_coeficiente_k_1 | intros k_1].
  apply nzd_bind; [apply nzd_coeficiente_alfa_b; exact Hf | intros alfa_b].
  apply nzd_truediv. lra.
Qed.

(** X1: A bolt that the constructor accepts has gamma_M2 > 0 and f_u > 0, and the
    coefficient functions guard d_0: no operation of [ResistenciaCalculo] on
    such a bolt ends in [ZeroDivisionError], whatever its arguments. *)
Theorem no_ZeroDivisionError_1_8
  (d A A_s : R) (grado : string) (f_ub t f_u g_M2 : R)
  (self : EN1993_1_8.ResistenciaCalculo) :
  EN1993_1_8.init d A A_s grado f_ub t f_u g_M2 = ([], Return self) ->
  (forall through_thread : bool,
      raises_ZeroDivisionError
        (EN1993_1_8.resistencia_cortante self through_thread) = false)
  /\ (forall (e_2 p_2 d_0 : R) (posicion : string),
         raises_ZeroDivisionError
           (EN1993_1_8.coeficiente_k_1 self e_2 p_2 d_0 posicion) = false)
  /\ (forall (e_1 p_1 d_0 : R) (posicion : string),
         raises_ZeroDivisionError
           (EN1993_1_8.coeficiente_alfa_d self e_1 p_1 d_0 posicion) = false)
  /\ (forall (e_1 p_1 d_0 : R) (posicion : string),
         raises_ZeroDivisionError
           (EN1993_1_8.coeficiente_alfa_b self e_1 p_1 d_0 posicion) = false)
  /\ (forall (e_1 e_2 p_1 p_2 d_0 : R) (posicion_k1 posicion_ad : string),
         raises_ZeroDivisionError
           (EN1993_1_8.capacidad_resistente_F_bRd self e_1 e_2 p_1 p_2 d_0
              posicion_k1 posicion_ad) = false
         /\ raises_ZeroDivisionError
              (EN1993_1_8.capacidad_resistente_taladro_holgura_F_bRd self
                 e_1 e_2 p_1 p_2 d_0 posicion_k1 posicion_ad) = false
         /\ raises_ZeroDivisionError
              (EN1993_1_8.capacidad_resistente_taladro_rasgado_F_bRd self
                 e_1 e_2 p_1 p_2 d_0 posicion_k1 posicion_ad) = false)
  /\ (forall cabeza_avellanada : bool,
         raises_ZeroDivisionError
           (EN1993_1_8.resistencia_traccion_F_tRd self cabeza_avellanada)
         = false)
  /\ (forall s : R,
         raises_ZeroDivisionError
           (EN1993_1_8.resistencia_punzonamiento_B_pRd self s) = false).
Proof.
  intros Hinit. apply init_inv_1_8 in Hinit. destruct Hinit as [Hg [Hf ->]].
  repeat split.
  - intros through_thread. unfold EN1993_1_8.resistencia_cortante.
    apply nzd_bind; [apply nzd_local | intros alfa_v].
    apply nzd_truediv. simpl. lra.
  - intros. apply nzd_coeficiente_k_1.
  - intros. apply nzd_coeficiente_alfa_d.
  - intros. apply nzd_coeficiente_alfa_b. simpl. exact Hf.
  - apply nzd_capacidad_resistente_F_bRd; simpl; assumption.
  - unfold EN1993_1_8.capacidad_resistente_taladro_holgura_F_bRd.
    apply nzd_bind; [| intros F_bRd; reflexivity].
    apply nzd_capacidad_resistente_F_bRd; simpl; assumption.
  - unfold EN1993_1_8.capacidad_resistente_taladro_rasgado_F_bRd.
    destruct (negb (str_in posicion_k1 ["edge"; "inner"]%string));
      [reflexivity |].
    destruct (negb (str_in posicion_ad ["end"; "inner"]%string));
      [reflexivity |].
    apply nzd_bind; [| intros F_bRd; reflexivity].
    apply nzd_capacidad_resistente_F_bRd; simpl; assumption.
  - intros cabeza_avellanada. unfold EN1993_1_8.resistencia_traccion_F_tRd.
    apply nzd_truediv. simpl. lra.
  - intros s. unfold EN1993_1_8.resistencia_punzonamiento_B_pRd.
    apply nzd_truediv. simpl. lra.
Qed.

Lemma no_ZeroDivisionError_1_8_witness :
  EN1993_1_8.init 20 314 245 "8.8" 800 15 430 1.25 = ([], Return example_M20)
  /\ (forall (e_1 e_2 p_1 p_2 d_0 : R) (posicion_k1 posicion_ad : string),
         raises_ZeroDivisionError
           (EN1993_1_8.capacidad_resistente_F_bRd example_M20
              e_1 e_2 p_1 p_2 d_0 posicion_k1 posicion_ad) = false
         /\ raises_ZeroDivisionError
              (EN1993_1_8.capacidad_resistente_taladro_holgura_F_bRd
                 example_M20 e_1 e_2 p_1 p_2 d_0 posicion_k1 posicion_ad)
            = false
         /\ raises_ZeroDivisionError
              (EN1993_1_8.capacidad_resistente_taladro_rasgado_F_bRd
                 example_M20 e_1 e_2 p_1 p_2 d_0 posicion_k1 posicion_ad)
            = false).
Proof.
  assert (Hinit :
    EN1993_1_8.init 20 314 245 "8.8" 800 15 430 1.25 = ([], Return example_M20)).
  { apply init_ok_1_8; lra. }
  split; [exact Hinit |].
  exact (proj1 (proj2 (proj2 (proj2 (proj2
           (no_ZeroDivisionError_1_8 20 314 245 "8.8"%string 800 15 430 1.25
              example_M20 Hinit)))))).
Defined.

(** ** EN 1993-1-8: order and sign of k_1 *)

Lemma ratio_sign (x c d_0 : R) :
  0 < d_0 -> (x / d_0 - c < 0 <-> x < c * d_0).
Proof.
  intros Hd.
  assert (Hq : x / d_0 * d_0 = x) by (field; lra).
  set (q := x / d_0) in *.
  split; intros H; nra.
Qed.

(** X3: For d_0 > 0 the coefficient of an "edge" bolt never exceeds that of an
    "inner" bolt, which never exceeds 2.5; no floor is applied: the "inner"
    value is negative exactly when 1.4 p_2 < 1.7 d_0, and the "edge" value
    exactly when 2.8 e_2 < 1.7 d_0 or 1.4 p_2 < 1.7 d_0. *)
Theorem coeficiente_k_1_order_and_sign
  (self : EN1993_1_8.ResistenciaCalculo) (e_2 p_2 d_0 : R) :
  0 < d_0 ->
  exists k_edge k_inner : R,
    EN1993_1_8.coeficiente_k_1 self e_2 p_2 d_0 "edge" = ([], Return k_edge)
    /\ EN1993_1_8.coeficiente_k_1 self e_2 p_2 d_0 "inner" =
       ([], Return k_inner)
    /\ k_edge <= k_inner
    /\ k_inner <= 2.5
    /\ (k_inner < 0 <-> 1.4 * p_2 < 1.7 * d_0)
    /\ (k_edge < 0 <-> 2.8 * e_2 < 1.7 * d_0 \/ 1.4 * p_2 < 1.7 * d_0).
Proof.
  intros Hd.
  exists (Rmin (Rmin (2.8 * e_2 / d_0 - 1.7) (1.4 * p_2 / d_0 - 1.7)) 2.5).
  exists (Rmin (1.4 * p_2 / d_0 - 1.7) 2.5).
  split; [exact (coeficiente_k_1_edge self e_2 p_2 d_0 Hd) |].
  split; [exact (coeficiente_k_1_inner self e_2 p_2 d_0 Hd) |].
  pose proof (ratio_sign (2.8 * e_2) 1.7 d_0 Hd) as Ha.
  pose proof (ratio_sign (1.4 * p_2) 1.7 d_0 Hd) as Hb.
  set (a := 2.8 * e_2 / d_0 - 1.7) in *.
  set (b := 1.4 * p_2 / d_0 - 1.7) in *.
  unfold Rmin.
  destruct (Rle_dec a b); destruct (Rle_dec b 2.5); destruct (Rle_dec a 2.5);
    repeat split; try lra; intros H; try tauto;
    try (destruct H as [H | H]); try (apply Ha in H); try (apply Hb in H);
    try lra;
    try (left; apply Ha; lra); try (right; apply Hb; lra);
    try (apply Hb; lra).
Qed.

Lemma coeficiente_k_1_order_and_sign_witness :
  0 < 22 /\
  exists k_edge k_inner : R,
    EN1993_1_8.coeficiente_k_1 example_M20 30 22 22 "edge" =
      ([], Return k_edge)
    /\ EN1993_1_8.coeficiente_k_1 example_M20 30 22 22 "inner" =
       ([], Return k_inner)
    /\ k_edge <= k_inner
    /\ k_inner <= 2.5
    /\ (k_inner < 0 <-> 1.4 * 22 < 1.7 * 22)
    /\ (k_edge < 0 <-> 2.8 * 30 < 1.7 * 22 \/ 1.4 * 22 < 1.7 * 22).
Proof.
  assert (Hd : 0 < 22) by lra.
  split; [exact Hd |].
  exact (coeficiente_k_1_order_and_sign example_M20 30 22 22 Hd).
Defined.

(** ** EN 1993-1-8: tension and shear compared *)

Lemma resistencia_traccion_F_tRd_value
  (self : EN1993_1_8.ResistenciaCalculo) (cabeza_avellanada : bool) :
  0 < EN1993_1_8.g_M2 self ->
  EN1993_1_8.resistencia_traccion_F_tRd self cabeza_avellanada =
  ret ((if cabeza_avellanada then 0.63 else 0.9)
       * EN1993_1_8.f_ub self * EN1993_1_8.A_s self / EN1993_1_8.g_M2 self).
Proof.
  intros Hg. unfold EN1993_1_8.resistencia_traccion_F_tRd,
    EN1993_1_8.coeficiente_k_2.
  py_step. reflexivity.
Qed.

Lemma resistencia_cortante_value
  (self : EN1993_1_8.ResistenciaCalculo) (through_thread : bool) :
  0 < EN1993_1_8.g_M2 self ->
  str_in (EN1993_1_8.grado self) valid_grades = true ->
  EN1993_1_8.resistencia_cortante self through_thread =
  ret (spec_alpha_v (EN1993_1_8.grado self) through_thread
       * EN1993_1_8.f_ub self
       * (if through_thread then EN1993_1_8.A_s self else EN1993_1_8.A self)
       / EN1993_1_8.g_M2 self).
Proof.
  intros Hg Hv. unfold EN1993_1_8.resistencia_cortante.
  rewrite coeficiente_cortante_alfa_v_spec by exact Hv.
  py_step. reflexivity.
Qed.

Lemma spec_alpha_v_range (grade : string) (through_thread : bool) :
  (spec_alpha_v grade through_thread = 0.5
   \/ spec_alpha_v grade through_thread = 0.6)
  /\ spec_alpha_v grade false = 0.6.
Proof.
  unfold spec_alpha_v. split; [| reflexivity].
  destruct through_thread; [| right; reflexivity].
  destruct (str_in grade ["4.6"; "5.6"; "8.8"]%string);
    [right | left]; reflexivity.
Qed.

(** X6: For a constructed bolt the tension resistance is
    0.9 * f_ub * A_s / gamma_M2, and a countersunk head gives exactly 0.7
    times it. *)
Theorem resistencia_traccion_countersunk_factor
  (d A A_s : R) (grado : string) (f_ub t f_u g_M2 : R)
  (self : EN1993_1_8.ResistenciaCalculo) :
  EN1993_1_8.init d A A_s grado f_ub t f_u g_M2 = ([], Return self) ->
  exists F_tRd : R,
    EN1993_1_8.resistencia_traccion_F_tRd self false = ([], Return F_tRd)
    /\ F_tRd = 0.9 * f_ub * A_s / g_M2
    /\ EN1993_1_8.resistencia_traccion_F_tRd self true =
       ([], Return (0.7 * F_tRd)).
Proof.
  intros Hinit. apply init_inv_1_8 in Hinit. destruct Hinit as [Hg [Hf ->]].
  exists (0.9 * f_ub * A_s / g_M2).
  rewrite !resistencia_traccion_F_tRd_value by (simpl; exact Hg). simpl.
  split; [reflexivity |]. split; [reflexivity |].
  unfold ret. do 2 f_equal.
  replace 0.63 with (0.7 * 0.9) by lra. unfold Rdiv. ring.
Qed.

Lemma resistencia_traccion_countersunk_factor_witness :
  EN1993_1_8.init 20 314 245 "8.8" 800 15 430 1.25 = ([], Return example_M20)
  /\ exists F_tRd : R,
       EN1993_1_8.resistencia_traccion_F_tRd example_M20 false =
         ([], Return F_tRd)
       /\ F_tRd = 0.9 * 800 * 245 / 1.25
       /\ EN1993_1_8.resistencia_traccion_F_tRd example_M20 true =
          ([], Return (0.7 * F_tRd)).
Proof.
  assert (Hinit :
    EN1993_1_8.init 20 314 245 "8.8" 800 15 430 1.25 = ([], Return example_M20)).
  { apply init_ok_1_8; lra. }
  split; [exact Hinit |].
  exact (resistencia_traccion_countersunk_factor
           20 314 245 "8.8"%string 800 15 430 1.25 example_M20 Hinit).
Defined.

(** X7: For a constructed bolt of an enumerated grade with f_ub >= 0 and
    0 <= A_s <= A, the shear resistance with the shear plane through the
    thread never exceeds the one with the plane through the shank. *)
Theorem resistencia_cortante_thread_not_stronger
  (d A A_s : R) (grado : string) (f_ub t f_u g_M2 : R)
  (self : EN1993_1_8.ResistenciaCalculo) :
  EN1993_1_8.init d A A_s grado f_ub t f_u g_M2 = ([], Return self) ->
  str_in grado valid_grades = true ->
  0 <= f_ub -> 0 <= A_s -> A_s <= A ->
  exists F_thread F_shank : R,
    EN1993_1_8.resistencia_cortante self true = ([], Return F_thread)
    /\ EN1993_1_8.resistencia_cortante self false = ([], Return F_shank)
    /\ F_thread <= F_shank.
Proof.
  intros Hinit Hv Hfub HAs HA.
  apply init_inv_1_8 in Hinit. destruct Hinit as [Hg [Hf ->]].
  do 2 eexists.
  rewrite !resistencia_cortante_value by (simpl; assumption).
  cbn [EN1993_1_8.grado EN1993_1_8.f_ub EN1993_1_8.A_s EN1993_1_8.A
       EN1993_1_8.g_M2].
  split; [reflexivity |]. split; [reflexivity |].
  assert (Hinv : 0 < / g_M2) by (apply Rinv_0_lt_compat; exact Hg).
  unfold Rdiv. apply Rmult_le_compat_r; [lra |].
  destruct (spec_alpha_v_range grado true) as [[-> | ->] ->]; nra.
Qed.

Lemma resistencia_cortante_thread_not_stronger_witness :
  EN1993_1_8.init 20 314 245 "8.8" 800 15 430 1.25 = ([], Return example_M20)
  /\ str_in "8.8" valid_grades = true
  /\ 0 <= 800 /\ 0 <= 245 /\ 245 <= 314
  /\ exists F_thread F_shank : R,
       EN1993_1_8.resistencia_cortante example_M20 true =
         ([], Return F_thread)
       /\ EN1993_1_8.resistencia_cortante example_M20 false =
          ([], Return F_shank)
       /\ F_thread <= F_shank.
Proof.
  assert (Hinit :
    EN1993_1_8.init 20 314 245 "8.8" 800 15 430 1.25 = ([], Return example_M20)).
  { apply init_ok_1_8; lra. }
  assert (H1 : 0 <= 800) by lra.
  assert (H2 : 0 <= 245) by lra.
  assert (H3 : 245 <= 314) by lra.
  split; [exact Hinit |]. split; [reflexivity |].
  split; [exact H1 |]. split; [exact H2 |]. split; [exact H3 |].
  exact (resistencia_cortante_thread_not_stronger
           20 314 245 "8.8"%string 800 15 430 1.25 example_M20
           Hinit eq_refl H1 H2 H3).
Defined.

(** X8: For a constructed bolt of an enumerated grade, with the shear plane
    through the thread the shear resistance is alpha_v / 0.9 times the
    tension resistance of a regular head: 2/3 of it for grades 4.6, 5.6 and
    8.8, 5/9 of it for grades 4.8, 5.8, 6.8 and 10.9. *)
Theorem resistencia_cortante_over_traccion
  (d A A_s : R) (grado : string) (f_ub t f_u g_M2 : R)
  (self : EN1993_1_8.ResistenciaCalculo) :
  EN1993_1_8.init d A A_s grado f_ub t f_u g_M2 = ([], Return self) ->
  str_in grado valid_grades = true ->
  exists F_vRd F_tRd : R,
    EN1993_1_8.resistencia_cortante self true = ([], Return F_vRd)
    /\ EN1993_1_8.resistencia_traccion_F_tRd self false = ([], Return F_tRd)
    /\ F_vRd =
       (if str_in grado ["4.6"; "5.6"; "8.8"]%string then 2 / 3 else 5 / 9)
       * F_tRd.
Proof.
  intros Hinit Hv.
  apply init_inv_1_8 in Hinit. destruct Hinit as [Hg [Hf ->]].
  do 2 eexists.
  rewrite resistencia_cortante_value by (simpl; assumption).
  rewrite resistencia_traccion_F_tRd_value by (simpl; assumption).
  cbn [EN1993_1_8.grado EN1993_1_8.f_ub EN1993_1_8.A_s EN1993_1_8.A
       EN1993_1_8.g_M2].
  split; [reflexivity |]. split; [reflexivity |].
  unfold spec_alpha_v.
  destruct (str_in grado ["4.6"; "5.6"; "8.8"]%string).
  - replace 0.6 with (2 / 3 * 0.9) by lra.
    generalize (2 / 3). intros c. unfold Rdiv. ring.
  - replace 0.5 with (5 / 9 * 0.9) by lra.
    generalize (5 / 9). intros c. unfold Rdiv. ring.
Qed.

Lemma resistencia_cortante_over_traccion_witness :
  EN1993_1_8.init 20 314 245 "8.8" 800 15 430 1.25 = ([], Return example_M20)
  /\ str_in "8.8" valid_grades = true
  /\ exists F_vRd F_tRd : R,
       EN1993_1_8.resistencia_cortante example_M20 true = ([], Return F_vRd)
       /\ EN1993_1_8.resistencia_traccion_F_tRd example_M20 false =
          ([], Return F_tRd)
       /\ F_vRd =
          (if str_in "8.8" ["4.6"; "5.6"; "8.8"]%string then 2 / 3 else 5 / 9)
          * F_tRd.
Proof.
  assert (Hinit :
    EN1993_1_8.init 20 314 245 "8.8" 800 15 430 1.25 = ([], Return example_M20)).
  { apply init_ok_1_8; lra. }
  split; [exact Hinit |]. split; [reflexivity |].
  exact (resistencia_cortante_over_traccion
           20 314 245 "8.8"%string 800 15 430 1.25 example_M20
           Hinit eq_refl).
Defined.

(** ** EN 1993-1-8: bearing with a hole diameter that is not positive *)

(** X5: With d_0 <= 0 the base and the oversized-hole bearing operations raise
    the [ValueError] of the d_0 check whatever the position tags are, since
    [coeficiente_k_1] checks d_0 before its position; the slotted-hole
    operation checks its two positions first, so there the d_0 error shows
    only when both positions are valid.  Nothing is printed. *)
Theorem bearing_d_0_not_positive
  (self : EN1993_1_8.ResistenciaCalculo)
  (e_1 e_2 p_1 p_2 d_0 : R) (posicion_k1 posicion_ad : string) :
  d_0 <= 0 ->
  EN1993_1_8.capacidad_resistente_F_bRd self e_1 e_2 p_1 p_2 d_0
    posicion_k1 posicion_ad =
    ([], Raise (ValueError ":( d_0 debe ser positivo."))
  /\ EN1993_1_8.capacidad_resistente_taladro_holgura_F_bRd self
       e_1 e_2 p_1 p_2 d_0 posicion_k1 posicion_ad =
     ([], Raise (ValueError ":( d_0 debe ser positivo."))
  /\ EN1993_1_8.capacidad_resistente_taladro_rasgado_F_bRd self
       e_1 e_2 p_1 p_2 d_0 posicion_k1 posicion_ad =
     ([], Raise (ValueError
                   (if negb (str_in posicion_k1 ["edge"; "inner"]%string)
                    then EN1993_1_8.msg_rasgado_k1
                    else if negb (str_in posicion_ad ["end"; "inner"]%string)
                         then EN1993_1_8.msg_rasgado_ad
                         else ":( d_0 debe ser positivo."%string))).
Proof.
  intros Hd.
  assert (Hbase :
    EN1993_1_8.capacidad_resistente_F_bRd self e_1 e_2 p_1 p_2 d_0
      posicion_k1 posicion_ad =
    ([], Raise (ValueError ":( d_0 debe ser positivo."))).
  { unfold EN1993_1_8.capacidad_resistente_F_bRd.
    destruct (coeficientes_d_0_not_positive self e_2 p_2 d_0 posicion_k1 Hd)
      as [-> _].
    reflexivity. }
  unfold EN1993_1_8.capacidad_resistente_taladro_holgura_F_bRd,
    EN1993_1_8.capacidad_resistente_taladro_rasgado_F_bRd.
  rewrite Hbase. split; [reflexivity |]. split; [reflexivity |].
  destruct (negb (str_in posicion_k1 ["edge"; "inner"]%string));
    [reflexivity |].
  destruct (negb (str_in posicion_ad ["end"; "inner"]%string)); reflexivity.
Qed.

Lemma bearing_d_0_not_positive_witness :
  0 <= 0
  /\ EN1993_1_8.capacidad_resistente_F_bRd example_M20 30 30 60 60 0
       "corner" "end" =
     ([], Raise (ValueError ":( d_0 debe ser positivo."))
  /\ EN1993_1_8.capacidad_resistente_taladro_holgura_F_bRd example_M20
       30 30 60 60 0 "corner" "end" =
     ([], Raise (ValueError ":( d_0 debe ser positivo."))
  /\ EN1993_1_8.capacidad_resistente_taladro_rasgado_F_bRd example_M20
       30 30 60 60 0 "corner" "end" =
     ([], Raise (ValueError
                   (if negb (str_in "corner" ["edge"; "inner"]%string)
                    then EN1993_1_8.msg_rasgado_k1
                    else if negb (str_in "end" ["end"; "inner"]%string)
                         then EN1993_1_8.msg_rasgado_ad
                         else ":( d_0 debe ser positivo."%string))).
Proof.
  assert (Hd : 0 <= 0) by lra.
  split; [exact Hd |].
  exact (bearing_d_0_not_positive example_M20 30 30 60 60 0
           "corner"%string "end"%string Hd).
Defined.

(** ** EN 1993-1-8, section 3.5: hole layout *)

Lemma init_inv_3_5 (d_0 t : R) (self : EN1993_1_8_3_5.DisposicionTaladros) :
  EN1993_1_8_3_5.init d_0 t = ret self ->
  0 < d_0 /\ 0 < t /\ self = EN1993_1_8_3_5.Build_DisposicionTaladros d_0 t.
Proof.
  unfold EN1993_1_8_3_5.init.
  destruct (Rle_dec d_0 0); [discriminate |].
  destruct (Rle_dec t 0); [discriminate |].
  intros H. injection H as <-. repeat split; lra.
Qed.

Lemma init_ok_3_5 (d_0 t : R) :
  0 < d_0 -> 0 < t ->
  EN1993_1_8_3_5.init d_0 t =
  ret (EN1993_1_8_3_5.Build_DisposicionTaladros d_0 t).
Proof.
  intros Hd Ht. unfold EN1993_1_8_3_5.init.
  destruct (Rle_dec d_0 0); [lra |].
  destruct (Rle_dec t 0); [lra | reflexivity].
Qed.

Lemma max2_Rmax (a b : R) : max2 a b = Rmax a b.
Proof.
  unfold max2, Rmax.
  destruct (Rlt_dec a b), (Rle_dec a b); try reflexivity; lra.
Qed.

(** X9: The constructor of the hole layout returns exactly when d_0 > 0 and
    t > 0; otherwise it raises [ValueError], and the check of d_0 comes
    first: when both are invalid the error names the hole diameter. *)
Theorem init_3_5_accepts_iff (d_0 t : R) :
  (returns (EN1993_1_8_3_5.init d_0 t) = true <-> 0 < d_0 /\ 0 < t)
  /\ (d_0 <= 0 ->
      EN1993_1_8_3_5.init d_0 t =
      ([], Raise (ValueError
                    ":( El diámetro del taladro debe ser mayor que cero.")))
  /\ (0 < d_0 -> t <= 0 ->
      EN1993_1_8_3_5.init d_0 t =
      ([], Raise (ValueError
                    ":( El espesor de la chapa debe ser mayor que cero.")))
  /\ (0 < d_0 -> 0 < t ->
      EN1993_1_8_3_5.init d_0 t =
      ([], Return (EN1993_1_8_3_5.Build_DisposicionTaladros d_0 t))).
Proof.
  unfold EN1993_1_8_3_5.init.
  destruct (Rle_dec d_0 0) as [Hd | Hd]; [| destruct (Rle_dec t 0) as [Ht | Ht]].
  - repeat split; intros; try reflexivity; try lra; try discriminate.
  - repeat split; intros; try reflexivity; try lra; try discriminate.
  - repeat split; intros; try reflexivity; try lra; try discriminate.
Qed.

(** X10: For a constructed layout the minimum distances are positive and ordered:
    e_1 = e_2 < e_3 = e_4 < p_1 < p_2. *)
Theorem minimum_distances_ordered (d_0 t : R)
  (self : EN1993_1_8_3_5.DisposicionTaladros) :
  EN1993_1_8_3_5.init d_0 t = ([], Return self) ->
  let e_1 :=
    EN1993_1_8_3_5.distancia_centro_extremo_direccion_carga_minima self in
  let e_2 :=
    EN1993_1_8_3_5.distancia_centro_extremo_direccion_perpendicular_carga_minima
      self in
  let e_3 := EN1993_1_8_3_5.distancia_eje_taladro_alargado_extremo_minima self in
  let e_4 :=
    EN1993_1_8_3_5.distancia_centro_radio_alargado_extremo_minima self in
  let p_1 := EN1993_1_8_3_5.espacio_entre_centros_minimo self in
  let p_2 := EN1993_1_8_3_5.espacio_medio_perpendicular_carga_minimo self in
  0 < e_1 /\ e_1 = e_2 /\ e_2 < e_3 /\ e_3 = e_4 /\ e_4 < p_1 /\ p_1 < p_2.
Proof.
  intros Hinit. apply init_inv_3_5 in Hinit. destruct Hinit as [Hd [Ht ->]].
  unfold EN1993_1_8_3_5.distancia_centro_extremo_direccion_carga_minima,
    EN1993_1_8_3_5.distancia_centro_extremo_direccion_perpendicular_carga_minima,
    EN1993_1_8_3_5.distancia_eje_taladro_alargado_extremo_minima,
    EN1993_1_8_3_5.distancia_centro_radio_alargado_extremo_minima,
    EN1993_1_8_3_5.espacio_entre_centros_minimo,
    EN1993_1_8_3_5.espacio_medio_perpendicular_carga_minimo.
  simpl. repeat split; lra.
Qed.

Lemma minimum_distances_ordered_witness :
  EN1993_1_8_3_5.init 22 15 = ([], Return example_layout)
  /\
  let e_1 :=
    EN1993_1_8_3_5.distancia_centro_extremo_direccion_carga_minima
      example_layout in
  let e_2 :=
    EN1993_1_8_3_5.distancia_centro_extremo_direccion_perpendicular_carga_minima
      example_layout in
  let e_3 :=
    EN1993_1_8_3_5.distancia_eje_taladro_alargado_extremo_minima
      example_layout in
  let e_4 :=
    EN1993_1_8_3_5.distancia_centro_radio_alargado_extremo_minima
      example_layout in
  let p_1 := EN1993_1_8_3_5.espacio_entre_centros_minimo example_layout in
  let p_2 :=
    EN1993_1_8_3_5.espacio_medio_perpendicular_carga_minimo example_layout in
  0 < e_1 /\ e_1 = e_2 /\ e_2 < e_3 /\ e_3 = e_4 /\ e_4 < p_1 /\ p_1 < p_2.
Proof.
  assert (Hinit : EN1993_1_8_3_5.init 22 15 = ([], Return example_layout)).
  { apply init_ok_3_5; lra. }
  split; [exact Hinit |].
  exact (minimum_distances_ordered 22 15 example_layout Hinit).
Defined.

(** X11: The maximum spacings: for every plate thickness the limit for
    weathering steel (EN 10025-5) never exceeds the limit for EN 10025 steel,
    which never exceeds 200 mm; the two coincide exactly when 14 t <= 175;
    the limits of p_1 and p_2 coincide, and for t >= 0 the limit of an inner
    row is at least that of an outer row. *)
Theorem maximum_spacings_ordered (self : EN1993_1_8_3_5.DisposicionTaladros) :
  let t := EN1993_1_8_3_5.t self in
  let p_1 :=
    EN1993_1_8_3_5.espacio_entre_centros_maximo_en10025_ambiente_exterior
      self in
  let p_1_5 := EN1993_1_8_3_5.espacio_entre_centros_maximo_en10025_5 self in
  let p_10 :=
    EN1993_1_8_3_5.espacio_entre_centros_fila_exterior_maximo_en10025_ambiente_exterior
      self in
  let p_1i :=
    EN1993_1_8_3_5.espacio_entre_centros_fila_interior_maximo_en10025_ambiente_exterior
      self in
  p_1 = Rmin (14 * t) 200
  /\ p_1_5 = Rmin (14 * t) 175
  /\ p_1_5 <= p_1 /\ p_1 <= 200
  /\ (p_1_5 = p_1 <-> 14 * t <= 175)
  /\ EN1993_1_8_3_5.espacio_entre_centros_maximo_en10025_no_ambiente_exterior
       self = p_1
  /\ EN1993_1_8_3_5.espacio_medio_perpendicular_carga_maximo_en10025_ambiente_exterior
       self = p_1
  /\ EN1993_1_8_3_5.espacio_medio_perpendicular_carga_maximo_en10025_no_ambiente_exterior
       self = p_1
  /\ EN1993_1_8_3_5.espacio_medio_perpendicular_carga_maximo_en10025_5 self
     = p_1_5
  /\ p_10 = p_1
  /\ p_1i = Rmin (28 * t) 200
  /\ (0 <= t -> p_10 <= p_1i).
Proof.
  intros t p_1 p_1_5 p_10 p_1i. subst p_1 p_1_5 p_10 p_1i.
  unfold EN1993_1_8_3_5.espacio_entre_centros_maximo_en10025_ambiente_exterior,
    EN1993_1_8_3_5.espacio_entre_centros_maximo_en10025_5,
    EN1993_1_8_3_5.espacio_entre_centros_fila_exterior_maximo_en10025_ambiente_exterior,
    EN1993_1_8_3_5.espacio_entre_centros_fila_interior_maximo_en10025_ambiente_exterior,
    EN1993_1_8_3_5.espacio_entre_centros_maximo_en10025_no_ambiente_exterior,
    EN1993_1_8_3_5.espacio_medio_perpendicular_carga_maximo_en10025_ambiente_exterior,
    EN1993_1_8_3_5.espacio_medio_perpendicular_carga_maximo_en10025_no_ambiente_exterior,
    EN1993_1_8_3_5.espacio_medio_perpendicular_carga_maximo_en10025_5.
  fold t. rewrite !min2_Rmin. unfold Rmin.
  destruct (Rle_dec (14 * t) 200); destruct (Rle_dec (14 * t) 175);
    destruct (Rle_dec (28 * t) 200);
    repeat split; intros; try reflexivity; lra.
Qed.

(** X12: The maximum edge distances: the limits of e_1 and e_2 coincide; the
    limit for unprotected weathering steel, max(8 t, 125), is at least 125
    and strictly above the limit 4 t + 40 for exposed EN 10025 steel, for
    every plate thickness. *)
Theorem maximum_edge_distances_ordered
  (self : EN1993_1_8_3_5.DisposicionTaladros) :
  let t := EN1993_1_8_3_5.t self in
  let e_1 :=
    EN1993_1_8_3_5.distancia_centro_extremo_direccion_carga_maxima_en10025_ambiente_exterior
      self in
  let e_1_5 :=
    EN1993_1_8_3_5.distancia_centro_extremo_direccion_carga_maxima_en10025_5
      self in
  e_1 = 4 * t + 40
  /\ e_1_5 = Rmax (8 * t) 125
  /\ 125 <= e_1_5
  /\ e_1 < e_1_5
  /\ EN1993_1_8_3_5.distancia_centro_extremo_direccion_perpendicular_carga_maxima_en10025_ambiente_exterior
       self = e_1
  /\ EN1993_1_8_3_5.distancia_centro_extremo_direccion_perpendicular_carga_maxima_en10025_5
       self = e_1_5.
Proof.
  intros t e_1 e_1_5. subst e_1 e_1_5.
  unfold EN1993_1_8_3_5.distancia_centro_extremo_direccion_carga_maxima_en10025_ambiente_exterior,
    EN1993_1_8_3_5.distancia_centro_extremo_direccion_carga_maxima_en10025_5,
    EN1993_1_8_3_5.distancia_centro_extremo_direccion_perpendicular_carga_maxima_en10025_ambiente_exterior,
    EN1993_1_8_3_5.distancia_centro_extremo_direccion_perpendicular_carga_maxima_en10025_5.
  fold t. rewrite !max2_Rmax. unfold Rmax.
  destruct (Rle_dec (8 * t) 125); repeat split; try reflexivity; lra.
Qed.

(** ** The coefficients at the minimum hole layout *)

Lemma div_scaled (c k d_0 : R) :
  d_0 <> 0 -> k <> 0 -> c * d_0 / (k * d_0) = c / k.
Proof. intros Hd Hk. field. split; assumption. Qed.

Lemma div_same (c d_0 : R) : d_0 <> 0 -> c * d_0 / d_0 = c.
Proof. intros Hd. field. exact Hd. Qed.

Lemma coefficients_at_minimum_layout_aux
  (bolt : EN1993_1_8.ResistenciaCalculo) (d_0 t : R)
  (layout : EN1993_1_8_3_5.DisposicionTaladros) :
  EN1993_1_8_3_5.init d_0 t = ([], Return layout) ->
  let e_1 :=
    EN1993_1_8_3_5.distancia_centro_extremo_direccion_carga_minima layout in
  let e_2 :=
    EN1993_1_8_3_5.distancia_centro_extremo_direccion_perpendicular_carga_minima
      layout in
  let p_1 := EN1993_1_8_3_5.espacio_entre_centros_minimo layout in
  let p_2 := EN1993_1_8_3_5.espacio_medio_perpendicular_carga_minimo layout in
  EN1993_1_8.coeficiente_k_1 bolt e_2 p_2 d_0 "edge" = ([], Return 1.66)
  /\ EN1993_1_8.coeficiente_k_1 bolt e_2 p_2 d_0 "inner" = ([], Return 1.66)
  /\ EN1993_1_8.coeficiente_alfa_d bolt e_1 p_1 d_0 "end" = ([], Return 0.4)
  /\ EN1993_1_8.coeficiente_alfa_d bolt e_1 p_1 d_0 "inner" =
     ([], Return (29 / 60)).
Proof.
  intros Hinit. apply init_inv_3_5 in Hinit. destruct Hinit as [Hd [Ht ->]].
  unfold EN1993_1_8_3_5.distancia_centro_extremo_direccion_carga_minima,
    EN1993_1_8_3_5.distancia_centro_extremo_direccion_perpendicular_carga_minima,
    EN1993_1_8_3_5.espacio_entre_centros_minimo,
    EN1993_1_8_3_5.espacio_medio_perpendicular_carga_minimo.
  cbn [EN1993_1_8_3_5.d_0].
  rewrite coeficiente_k_1_edge, coeficiente_k_1_inner by exact Hd.
  rewrite coeficiente_alfa_d_end, coeficiente_alfa_d_inner by exact Hd.
  replace (2.8 * (1.2 * d_0)) with (3.36 * d_0) by lra.
  replace (1.4 * (2.4 * d_0)) with (3.36 * d_0) by lra.
  rewrite !div_same by lra. rewrite !div_scaled by lra.
  unfold ret. repeat split; do 2 f_equal.
  - unfold Rmin.
    destruct (Rle_dec (3.36 - 1.7) (3.36 - 1.7)); [| lra].
    destruct (Rle_dec (3.36 - 1.7) 2.5); lra.
  - unfold Rmin. destruct (Rle_dec (3.36 - 1.7) 2.5); lra.
  - lra.
  - lra.
Qed.

(** X13: At the minimum distances of a constructed layout (e_1 = e_2 = 1.2 d_0,
    p_1 = 2.2 d_0, p_2 = 2.4 d_0) the coefficients do not depend on the hole
    diameter: k_1 = 1.66 at both positions, alpha_d = 0.4 for an "end" bolt
    and 29/60 for an "inner" bolt. *)
Theorem coefficients_at_minimum_layout
  (bolt : EN1993_1_8.ResistenciaCalculo) (d_0 t : R)
  (layout : EN1993_1_8_3_5.DisposicionTaladros) :
  EN1993_1_8_3_5.init d_0 t = ([], Return layout) ->
  let e_1 :=
    EN1993_1_8_3_5.distancia_centro_extremo_direccion_carga_minima layout in
  let e_2 :=
    EN1993_1_8_3_5.distancia_centro_extremo_direccion_perpendicular_carga_minima
      layout in
  let p_1 := EN1993_1_8_3_5.espacio_entre_centros_minimo layout in
  let p_2 := EN1993_1_8_3_5.espacio_medio_perpendicular_carga_minimo layout in
  EN1993_1_8.coeficiente_k_1 bolt e_2 p_2 d_0 "edge" = ([], Return 1.66)
  /\ EN1993_1_8.coeficiente_k_1 bolt e_2 p_2 d_0 "inner" = ([], Return 1.66)
  /\ EN1993_1_8.coeficiente_alfa_d bolt e_1 p_1 d_0 "end" = ([], Return 0.4)
  /\ EN1993_1_8.coeficiente_alfa_d bolt e_1 p_1 d_0 "inner" =
     ([], Return (29 / 60)).
Proof.
  intros Hinit.
  exact (coefficients_at_minimum_layout_aux bolt d_0 t layout Hinit).
Qed.

Lemma coefficients_at_minimum_layout_witness :
  EN1993_1_8_3_5.init 22 15 = ([], Return example_layout)
  /\
  let e_1 :=
    EN1993_1_8_3_5.distancia_centro_extremo_direccion_carga_minima
      example_layout in
  let e_2 :=
    EN1993_1_8_3_5.distancia_centro_extremo_direccion_perpendicular_carga_minima
      example_layout in
  let p_1 := EN1993_1_8_3_5.espacio_entre_centros_minimo example_layout in
  let p_2 :=
    EN1993_1_8_3_5.espacio_medio_perpendicular_carga_minimo example_layout in
  EN1993_1_8.coeficiente_k_1 example_M20 e_2 p_2 22 "edge" =
    ([], Return 1.66)
  /\ EN1993_1_8.coeficiente_k_1 example_M20 e_2 p_2 22 "inner" =
     ([], Return 1.66)
  /\ EN1993_1_8.coeficiente_alfa_d example_M20 e_1 p_1 22 "end" =
     ([], Return 0.4)
  /\ EN1993_1_8.coeficiente_alfa_d example_M20 e_1 p_1 22 "inner" =
     ([], Return (29 / 60)).
Proof.
  assert (Hinit : EN1993_1_8_3_5.init 22 15 = ([], Return example_layout)).
  { apply init_ok_3_5; lra. }
  split; [exact Hinit |].
  exact (coefficients_at_minimum_layout example_M20 22 15 example_layout Hinit).
Defined.

(** X14: The bearing resistance at the minimum layout, for a constructed bolt
    with f_ub >= 0.4 f_u: an "edge" and "end" bolt has alpha_b = 0.4 and
    F_b,Rd = 0.664 f_u d t / gamma_M2, whatever the hole diameter. *)
Theorem bearing_at_minimum_layout
  (d A A_s : R) (grado : string) (f_ub t f_u g_M2 : R)
  (bolt : EN1993_1_8.ResistenciaCalculo) (d_0 t_plate : R)
  (layout : EN1993_1_8_3_5.DisposicionTaladros) :
  EN1993_1_8.init d A A_s grado f_ub t f_u g_M2 = ([], Return bolt) ->
  EN1993_1_8_3_5.init d_0 t_plate = ([], Return layout) ->
  0.4 * f_u <= f_ub ->
  let e_1 :=
    EN1993_1_8_3_5.distancia_centro_extremo_direccion_carga_minima layout in
  let e_2 :=
    EN1993_1_8_3_5.distancia_centro_extremo_direccion_perpendicular_carga_minima
      layout in
  let p_1 := EN1993_1_8_3_5.espacio_entre_centros_minimo layout in
  let p_2 := EN1993_1_8_3_5.espacio_medio_perpendicular_carga_minimo layout in
  EN1993_1_8.coeficiente_alfa_b bolt e_1 p_1 d_0 "end" = ([], Return 0.4)
  /\ EN1993_1_8.capacidad_resistente_F_bRd bolt e_1 e_2 p_1 p_2 d_0
       "edge" "end" =
     ([], Return (0.664 * f_u * d * t / g_M2)).
Proof.
  intros Hbolt Hlayout Hratio e_1 e_2 p_1 p_2.
  destruct (coefficients_at_minimum_layout_aux bolt d_0 t_plate layout Hlayout)
    as [Hk [_ [Ha _]]].
  fold e_1 e_2 p_1 p_2 in Hk, Ha.
  apply init_inv_1_8 in Hbolt. destruct Hbolt as [Hg [Hf ->]].
  apply init_inv_3_5 in Hlayout. destruct Hlayout as [Hd [Ht _]].
  assert (Hq : 0.4 <= f_ub / f_u).
  { apply Rmult_le_reg_r with (r := f_u); [exact Hf |].
    replace (f_ub / f_u * f_u) with f_ub by (field; lra). exact Hratio. }
  assert (Hb :
    EN1993_1_8.coeficiente_alfa_b
      (EN1993_1_8.Build_ResistenciaCalculo d A A_s grado f_ub t f_u g_M2)
      e_1 p_1 d_0 "end" = ret 0.4).
  { unfold EN1993_1_8.coeficiente_alfa_b.
    destruct (Rle_dec d_0 0); [lra |].
    rewrite Ha. fold (@ret R 0.4). rewrite bind_ret.
    cbn [EN1993_1_8.f_ub EN1993_1_8.f_u].
    rewrite truediv_ok by lra. rewrite bind_ret.
    rewrite min3_Rmin. unfold ret. do 2 f_equal. unfold Rmin.
    destruct (Rle_dec 0.4 (f_ub / f_u)); [| lra].
    destruct (Rle_dec 0.4 1.0); lra. }
  split; [exact Hb |].
  unfold EN1993_1_8.capacidad_resistente_F_bRd.
  rewrite Hk. fold (@ret R 1.66). rewrite bind_ret, Hb, bind_ret.
  cbn [EN1993_1_8.f_u EN1993_1_8.d EN1993_1_8.t EN1993_1_8.g_M2].
  rewrite truediv_ok by lra. unfold ret. do 2 f_equal.
  replace (1.66 * 0.4) with 0.664 by lra. reflexivity.
Qed.

Lemma bearing_at_minimum_layout_witness :
  EN1993_1_8.init 20 314 245 "8.8" 800 15 430 1.25 = ([], Return example_M20)
  /\ EN1993_1_8_3_5.init 22 15 = ([], Return example_layout)
  /\ 0.4 * 430 <= 800
  /\
  let e_1 :=
    EN1993_1_8_3_5.distancia_centro_extremo_direccion_carga_minima
      example_layout in
  let e_2 :=
    EN1993_1_8_3_5.distancia_centro_extremo_direccion_perpendicular_carga_minima
      example_layout in
  let p_1 := EN1993_1_8_3_5.espacio_entre_centros_minimo example_layout in
  let p_2 :=
    EN1993_1_8_3_5.espacio_medio_perpendicular_carga_minimo example_layout in
  EN1993_1_8.coeficiente_alfa_b example_M20 e_1 p_1 22 "end" =
    ([], Return 0.4)
  /\ EN1993_1_8.capacidad_resistente_F_bRd example_M20 e_1 e_2 p_1 p_2 22
       "edge" "end" =
     ([], Return (0.664 * 430 * 20 * 15 / 1.25)).
Proof.
  assert (Hbolt :
    EN1993_1_8.init 20 314 245 "8.8" 800 15 430 1.25 = ([], Return example_M20)).
  { apply init_ok_1_8; lra. }
  assert (Hlayout : EN1993_1_8_3_5.init 22 15 = ([], Return example_layout)).
  { apply init_ok_3_5; lra. }
  assert (Hratio : 0.4 * 430 <= 800) by lra.
  split; [exact Hbolt |]. split; [exact Hlayout |]. split; [exact Hratio |].
  exact (bearing_at_minimum_layout 20 314 245 "8.8"%string 800 15 430 1.25
           example_M20 22 15 example_layout Hbolt Hlayout Hratio).
Defined.

(** ** EN 1993-1-3: bearing *)

Lemma truediv_by_zero (x y : R) :
  y = 0 -> truediv x y = raise ZeroDivisionError.
Proof. intros ->. apply truediv_zero. Qed.

Lemma coeficiente_alfa_b_1_3_value
  (self : EN1993_1_3.ResistenciasDisenoTornillos) :
  EN1993_1_3.d self <> 0 ->
  EN1993_1_3.coeficiente_alfa_b self =
  ret (Rmin 1 (EN1993_1_3.d_0 self / (3 * EN1993_1_3.d self))).
Proof.
  intros Hd. unfold EN1993_1_3.coeficiente_alfa_b,
    EN1993_1_3.rango_validez_e_1.
  cbn [EN1993_1_3.RangoValidez_d_0].
  rewrite truediv_ok by lra. rewrite bind_ret, min2_Rmin.
  replace 1.0 with 1 by lra. reflexivity.
Qed.

(** X15: The thin-gauge alpha_b takes e_1 = d_0 and divides by the bolt diameter
    without a guard: with d = 0 it ends in [ZeroDivisionError]; otherwise it
    returns min(1, d_0 / (3 d)), which for d > 0 is d_0 / (3 d) when
    d_0 <= 3 d and 1 when 3 d <= d_0. *)
Theorem coeficiente_alfa_b_1_3
  (self : EN1993_1_3.ResistenciasDisenoTornillos) :
  let d := EN1993_1_3.d self in
  let d_0 := EN1993_1_3.d_0 self in
  (d = 0 ->
   EN1993_1_3.coeficiente_alfa_b self = ([], Raise ZeroDivisionError))
  /\ (d <> 0 ->
      EN1993_1_3.coeficiente_alfa_b self =
      ([], Return (Rmin 1 (d_0 / (3 * d)))))
  /\ (0 < d -> d_0 <= 3 * d ->
      EN1993_1_3.coeficiente_alfa_b self = ([], Return (d_0 / (3 * d))))
  /\ (0 < d -> 3 * d <= d_0 ->
      EN1993_1_3.coeficiente_alfa_b self = ([], Return 1)).
Proof.
  intros d d_0. split; [| split; [| split]].
  - intros Hd. unfold EN1993_1_3.coeficiente_alfa_b.
    rewrite truediv_by_zero by (fold d; lra). reflexivity.
  - intros Hd. exact (coeficiente_alfa_b_1_3_value self Hd).
  - intros Hd Hle. rewrite coeficiente_alfa_b_1_3_value by (fold d; lra).
    fold d d_0. unfold ret. do 2 f_equal.
    assert (Hq : d_0 / (3 * d) <= 1).
    { apply Rmult_le_reg_r with (r := 3 * d); [lra |].
      replace (d_0 / (3 * d) * (3 * d)) with d_0 by (field; lra). lra. }
    unfold Rmin. destruct (Rle_dec 1 (d_0 / (3 * d))); lra.
  - intros Hd Hle. rewrite coeficiente_alfa_b_1_3_value by (fold d; lra).
    fold d d_0. unfold ret. do 2 f_equal.
    assert (Hq : 1 <= d_0 / (3 * d)).
    { apply Rmult_le_reg_r with (r := 3 * d); [lra |].
      replace (d_0 / (3 * d) * (3 * d)) with d_0 by (field; lra). lra. }
    unfold Rmin. destruct (Rle_dec 1 (d_0 / (3 * d))); lra.
Qed.

Lemma coeficiente_k_t_cases (self : EN1993_1_3.ResistenciasDisenoTornillos) :
  (EN1993_1_3.t self <= 1.25 ->
   EN1993_1_3.coeficiente_k_t self = (0.8 * EN1993_1_3.t self + 1.5) / 2.5)
  /\ (1.25 <= EN1993_1_3.t self -> EN1993_1_3.coeficiente_k_t self = 1).
Proof.
  unfold EN1993_1_3.coeficiente_k_t.
  destruct (Rle_dec (EN1993_1_3.t self) 1.25); split; intros; lra.
Qed.

(** X16: The thickness coefficient k_t never exceeds 1, equals 1 from t = 1.25 on
    (the two branches agree there), does not decrease when the plate gets
    thicker, and is at least 0.76 for t >= 0.5; there is no lower bound on
    t: below t = -1.875 it is negative. *)
Theorem coeficiente_k_t_shape
  (self other : EN1993_1_3.ResistenciasDisenoTornillos) :
  let t := EN1993_1_3.t self in
  let k_t := EN1993_1_3.coeficiente_k_t self in
  k_t <= 1
  /\ (1.25 <= t -> k_t = 1)
  /\ (t <= 1.25 -> k_t = (0.8 * t + 1.5) / 2.5)
  /\ (0.5 <= t -> 0.76 <= k_t)
  /\ (t < -1.875 -> k_t < 0)
  /\ (t <= EN1993_1_3.t other -> k_t <= EN1993_1_3.coeficiente_k_t other).
Proof.
  intros t k_t. subst k_t.
  destruct (coeficiente_k_t_cases self) as [Hlo Hhi].
  destruct (coeficiente_k_t_cases other) as [Hlo' Hhi'].
  fold t in Hlo, Hhi.
  destruct (Rle_dec t 1.25) as [Ht | Ht];
    destruct (Rle_dec (EN1993_1_3.t other) 1.25) as [Ho | Ho];
    try (rewrite (Hlo Ht)); try (rewrite (Hhi ltac:(lra)));
    try (rewrite (Hlo' Ho)); try (rewrite (Hhi' ltac:(lra)));
    repeat split; intros; lra.
Qed.

Lemma capacidad_resitente_F_bRd_value
  (self : EN1993_1_3.ResistenciasDisenoTornillos) :
  EN1993_1_3.d self <> 0 ->
  EN1993_1_3.g_M2 self <> 0 ->
  EN1993_1_3.capacidad_resitente_F_bRd self =
  ret (2.5 * Rmin 1 (EN1993_1_3.d_0 self / (3 * EN1993_1_3.d self))
       * EN1993_1_3.coeficiente_k_t self * EN1993_1_3.f_u self
       * EN1993_1_3.d self * EN1993_1_3.t self / EN1993_1_3.g_M2 self).
Proof.
  intros Hd Hg. unfold EN1993_1_3.capacidad_resitente_F_bRd.
  rewrite coeficiente_alfa_b_1_3_value by exact Hd.
  rewrite bind_ret. apply truediv_ok. exact Hg.
Qed.

(** X17: The thin-gauge bearing resistance returns exactly when d <> 0 and
    gamma_M2 <> 0 and ends in [ZeroDivisionError] otherwise; its value is
    2.5 min(1, d_0/(3 d)) k_t f_u d t / gamma_M2, and for d > 0 and
    d_0 <= 3 d the bolt diameter cancels:
    F_b,Rd = (2.5/3) k_t f_u d_0 t / gamma_M2. *)
Theorem capacidad_resitente_F_bRd_1_3
  (self : EN1993_1_3.ResistenciasDisenoTornillos) :
  let d := EN1993_1_3.d self in
  let d_0 := EN1993_1_3.d_0 self in
  let g_M2 := EN1993_1_3.g_M2 self in
  let k_t := EN1993_1_3.coeficiente_k_t self in
  let f_u := EN1993_1_3.f_u self in
  let t := EN1993_1_3.t self in
  (d = 0 \/ g_M2 = 0 ->
   EN1993_1_3.capacidad_resitente_F_bRd self = ([], Raise ZeroDivisionError))
  /\ (d <> 0 -> g_M2 <> 0 ->
      EN1993_1_3.capacidad_resitente_F_bRd self =
      ([], Return (2.5 * Rmin 1 (d_0 / (3 * d)) * k_t * f_u * d * t / g_M2)))
  /\ (0 < d -> d_0 <= 3 * d -> g_M2 <> 0 ->
      EN1993_1_3.capacidad_resitente_F_bRd self =
      ([], Return (2.5 / 3 * k_t * f_u * d_0 * t / g_M2))).
Proof.
  intros d d_0 g_M2 k_t f_u t. split; [| split].
  - intros H. unfold EN1993_1_3.capacidad_resitente_F_bRd.
    destruct (Req_dec_T d 0) as [Hd | Hd].
    + unfold EN1993_1_3.coeficiente_alfa_b.
      rewrite truediv_by_zero by (fold d; lra). reflexivity.
    + destruct H as [H | H]; [contradiction |].
      rewrite coeficiente_alfa_b_1_3_value by exact Hd.
      rewrite bind_ret. rewrite truediv_by_zero by exact H. reflexivity.
  - intros Hd Hg. exact (capacidad_resitente_F_bRd_value self Hd Hg).
  - intros Hd Hle Hg.
    rewrite capacidad_resitente_F_bRd_value by (try exact Hg; fold d; lra).
    fold d d_0 g_M2 k_t f_u t. unfold ret. do 2 f_equal.
    assert (Hq : d_0 / (3 * d) <= 1).
    { apply Rmult_le_reg_r with (r := 3 * d); [lra |].
      replace (d_0 / (3 * d) * (3 * d)) with d_0 by (field; lra). lra. }
    replace (Rmin 1 (d_0 / (3 * d))) with (d_0 / (3 * d)).
    2:{ unfold Rmin. destruct (Rle_dec 1 (d_0 / (3 * d))); lra. }
    generalize 2.5. intros c. field. split; [exact Hg | lra].
Qed.

(** ** EN 1993-1-3: when the net-section resistance fails *)

(** X18: The net-section resistance divides by u = 3 d_0 and by gamma_M2 without a
    guard: it returns exactly when d_0 <> 0 and gamma_M2 <> 0, and otherwise
    ends in [ZeroDivisionError], printing nothing. *)
Theorem net_section_returns_iff
  (self : EN1993_1_3.ResistenciasDisenoTornillos) :
  (EN1993_1_3.d_0 self = 0 \/ EN1993_1_3.g_M2 self = 0 ->
   EN1993_1_3.capacidad_resistente_area_transversal_neta_F_nRd self =
   ([], Raise ZeroDivisionError))
  /\ (returns
        (EN1993_1_3.capacidad_resistente_area_transversal_neta_F_nRd self)
      = true
      <-> EN1993_1_3.d_0 self <> 0 /\ EN1993_1_3.g_M2 self <> 0).
Proof.
  assert (Hfail :
    EN1993_1_3.d_0 self = 0 \/ EN1993_1_3.g_M2 self = 0 ->
    EN1993_1_3.capacidad_resistente_area_transversal_neta_F_nRd self =
    ([], Raise ZeroDivisionError)).
  { intros H.
    unfold EN1993_1_3.capacidad_resistente_area_transversal_neta_F_nRd,
      EN1993_1_3.relacion_tornillos_seccion_neta_entre_tornillos_totales.
    cbn [tuple_of].
    destruct (Req_dec_T (EN1993_1_3.d_0 self) 0) as [Hd | Hd].
    - rewrite (truediv_by_zero _ (EN1993_1_3.coeficiente_u self))
        by (rewrite coeficiente_u_value; lra).
      reflexivity.
    - destruct H as [H | H]; [contradiction |].
      rewrite (truediv_ok _ (EN1993_1_3.coeficiente_u self))
        by (rewrite coeficiente_u_value; lra).
      rewrite bind_ret.
      rewrite (truediv_by_zero _ (EN1993_1_3.g_M2 self)) by exact H.
      reflexivity. }
  split; [exact Hfail |].
  split.
  - intros Hret.
    destruct (Req_dec_T (EN1993_1_3.d_0 self) 0) as [Hd | Hd].
    + rewrite Hfail in Hret by (left; exact Hd). discriminate.
    + destruct (Req_dec_T (EN1993_1_3.g_M2 self) 0) as [Hg | Hg].
      * rewrite Hfail in Hret by (right; exact Hg). discriminate.
      * split; assumption.
  - intros [Hd Hg].
    destruct (capacidad_resistente_area_transversal_neta_F_nRd_spec self Hd Hg)
      as [_ [_ HF]].
    rewrite HF. reflexivity.
Qed.

(** ** EN 1993-1-3: shear and tension from the grade string *)

Lemma f_ub_enumerated (self : EN1993_1_3.ResistenciasDisenoTornillos) :
  str_in (EN1993_1_3.grado self) valid_grades = true ->
  exists f_ub : Z,
    In (EN1993_1_3.grado self, f_ub) grade_f_ub_table
    /\ EN1993_1_3.resistencia_ultima_traccion_tornillo_f_ub self = ret f_ub.
Proof.
  intros Hv. apply valid_grades_cases in Hv.
  unfold EN1993_1_3.resistencia_ultima_traccion_tornillo_f_ub,
    grade_f_ub_table.
  simpl in Hv.
  repeat (destruct Hv as [<- | Hv];
          [eexists; split; [| reflexivity]; simpl; tauto |]).
  contradiction.
Qed.

Lemma resistencia_cortante_F_vRd_value
  (self : EN1993_1_3.ResistenciasDisenoTornillos) (f_ub : Z) :
  str_in (EN1993_1_3.grado self) valid_grades = true ->
  EN1993_1_3.g_M2 self <> 0 ->
  EN1993_1_3.resistencia_ultima_traccion_tornillo_f_ub self = ret f_ub ->
  EN1993_1_3.resistencia_cortante_F_vRd self =
  ret (spec_alpha_v (EN1993_1_3.grado self) true * IZR f_ub
       * EN1993_1_3.A_s self / EN1993_1_3.g_M2 self).
Proof.
  intros Hv Hg Hf. unfold EN1993_1_3.resistencia_cortante_F_vRd, spec_alpha_v.
  rewrite Hf, bind_ret.
  destruct (str_in (EN1993_1_3.grado self) ["4.6"; "5.6"; "8.8"]%string)
    eqn:H1.
  - rewrite truediv_ok by exact Hg. rewrite !bind_ret. reflexivity.
  - assert (H2 : str_in (EN1993_1_3.grado self)
                   ["4.8"; "5.8"; "6.8"; "10.9"]%string = true).
    { unfold str_in, valid_grades in *. simpl in *.
      destruct (EN1993_1_3.grado self =? "4.6")%string;
        destruct (EN1993_1_3.grado self =? "5.6")%string;
        destruct (EN1993_1_3.grado self =? "8.8")%string;
        try discriminate H1;
        destruct (EN1993_1_3.grado self =? "4.8")%string;
        destruct (EN1993_1_3.grado self =? "5.8")%string;
        destruct (EN1993_1_3.grado self =? "6.8")%string;
        destruct (EN1993_1_3.grado self =? "10.9")%string;
        try reflexivity; discriminate Hv. }
    rewrite H2. rewrite truediv_ok by exact Hg. rewrite !bind_ret.
    reflexivity.
Qed.

(** X19: For every enumerated grade and gamma_M2 <> 0 the thin-gauge shear
    resistance returns alpha_v * f_ub * A_s / gamma_M2, where f_ub is the
    strength parsed from the grade (400, 400, 500, 500, 600, 800, 1000 for
    4.6, 4.8, 5.6, 5.8, 6.8, 8.8, 10.9) and alpha_v is the coefficient for a
    shear plane through the thread; nothing is printed. *)
Theorem resistencia_cortante_F_vRd_enumerated
  (self : EN1993_1_3.ResistenciasDisenoTornillos) :
  str_in (EN1993_1_3.grado self) valid_grades = true ->
  EN1993_1_3.g_M2 self <> 0 ->
  exists f_ub : Z,
    In (EN1993_1_3.grado self, f_ub) grade_f_ub_table
    /\ EN1993_1_3.resistencia_ultima_traccion_tornillo_f_ub self =
       ([], Return f_ub)
    /\ EN1993_1_3.resistencia_cortante_F_vRd self =
       ([], Return (spec_alpha_v (EN1993_1_3.grado self) true * IZR f_ub
                    * EN1993_1_3.A_s self / EN1993_1_3.g_M2 self)).
Proof.
  intros Hv Hg. destruct (f_ub_enumerated self Hv) as [f_ub [Hin Hf]].
  exists f_ub. split; [exact Hin |]. split; [exact Hf |].
  exact (resistencia_cortante_F_vRd_value self f_ub Hv Hg Hf).
Qed.

Lemma resistencia_cortante_F_vRd_enumerated_witness :
  str_in (EN1993_1_3.grado example_M12) valid_grades = true
  /\ EN1993_1_3.g_M2 example_M12 <> 0
  /\ exists f_ub : Z,
       In (EN1993_1_3.grado example_M12, f_ub) grade_f_ub_table
       /\ EN1993_1_3.resistencia_ultima_traccion_tornillo_f_ub example_M12 =
          ([], Return f_ub)
       /\ EN1993_1_3.resistencia_cortante_F_vRd example_M12 =
          ([], Return (spec_alpha_v (EN1993_1_3.grado example_M12) true
                       * IZR f_ub * EN1993_1_3.A_s example_M12
                       / EN1993_1_3.g_M2 example_M12)).
Proof.
  assert (Hg : EN1993_1_3.g_M2 example_M12 <> 0) by (simpl; lra).
  split; [reflexivity |]. split; [exact Hg |].
  exact (resistencia_cortante_F_vRd_enumerated example_M12 eq_refl Hg).
Defined.

(** X20: The two engines agree: when the general engine is constructed with the
    same grade, A_s and gamma_M2 and with the f_ub that the thin-gauge
    engine parses from an enumerated grade, its shear resistance through the
    thread and its tension resistance with a regular head equal the
    thin-gauge shear and tension resistances. *)
Theorem engines_agree_on_shear_and_tension
  (thin : EN1993_1_3.ResistenciasDisenoTornillos) (f_ub : Z)
  (d A t f_u : R) (general : EN1993_1_8.ResistenciaCalculo) :
  str_in (EN1993_1_3.grado thin) valid_grades = true ->
  EN1993_1_3.resistencia_ultima_traccion_tornillo_f_ub thin =
    ([], Return f_ub) ->
  EN1993_1_8.init d A (EN1993_1_3.A_s thin) (EN1993_1_3.grado thin)
    (IZR f_ub) t f_u (EN1993_1_3.g_M2 thin) = ([], Return general) ->
  EN1993_1_8.resistencia_cortante general true =
    EN1993_1_3.resistencia_cortante_F_vRd thin
  /\ EN1993_1_8.resistencia_traccion_F_tRd general false =
     EN1993_1_3.resistencia_traccion_F_tRd thin.
Proof.
  intros Hv Hf Hinit.
  apply init_inv_1_8 in Hinit. destruct Hinit as [Hg [Hfu ->]].
  rewrite resistencia_cortante_value by (simpl; assumption).
  rewrite resistencia_traccion_F_tRd_value by (simpl; assumption).
  rewrite (resistencia_cortante_F_vRd_value thin f_ub Hv ltac:(lra) Hf).
  unfold EN1993_1_3.resistencia_traccion_F_tRd.
  rewrite Hf. fold (@ret Z f_ub). rewrite bind_ret.
  rewrite truediv_ok by lra.
  split; reflexivity.
Qed.

Lemma engines_agree_on_shear_and_tension_witness :
  str_in (EN1993_1_3.grado example_M12) valid_grades = true
  /\ EN1993_1_3.resistencia_ultima_traccion_tornillo_f_ub example_M12 =
     ([], Return 800%Z)
  /\ EN1993_1_8.init 12 113 (EN1993_1_3.A_s example_M12)
       (EN1993_1_3.grado example_M12) (IZR 800) 2 450
       (EN1993_1_3.g_M2 example_M12) =
     ([], Return (EN1993_1_8.Build_ResistenciaCalculo
                    12 113 84 "8.8" 800 2 450 1.25))
  /\ EN1993_1_8.resistencia_cortante
       (EN1993_1_8.Build_ResistenciaCalculo 12 113 84 "8.8" 800 2 450 1.25)
       true =
     EN1993_1_3.resistencia_cortante_F_vRd example_M12
  /\ EN1993_1_8.resistencia_traccion_F_tRd
       (EN1993_1_8.Build_ResistenciaCalculo 12 113 84 "8.8" 800 2 450 1.25)
       false =
     EN1993_1_3.resistencia_traccion_F_tRd example_M12.
Proof.
  assert (Hf :
    EN1993_1_3.resistencia_ultima_traccion_tornillo_f_ub example_M12 =
    ([], Return 800%Z)) by reflexivity.
  assert (Hinit :
    EN1993_1_8.init 12 113 (EN1993_1_3.A_s example_M12)
      (EN1993_1_3.grado example_M12) (IZR 800) 2 450
      (EN1993_1_3.g_M2 example_M12) =
    ([], Return (EN1993_1_8.Build_ResistenciaCalculo
                   12 113 84 "8.8" 800 2 450 1.25))).
  { apply init_ok_1_8; simpl; lra. }
  split; [reflexivity |]. split; [exact Hf |]. split; [exact Hinit |].
  exact (engines_agree_on_shear_and_tension example_M12 800%Z 12 113 2 450
           _ eq_refl Hf Hinit).
Defined.

Lemma split_dot_1_dot_free (head : string) :
  dot_free head = true -> split_dot_1 head = [head].
Proof.
  induction head as [| c head IH]; simpl; intros H.
  - reflexivity.
  - apply andb_true_iff in H. destruct H as [Hc Hh].
    apply negb_true_iff in Hc. rewrite Hc, (IH Hh). reflexivity.
Qed.

Lemma split_dot_1_head_tail (head tail : string) :
  dot_free head = true ->
  split_dot_1 (head ++ "." ++ tail) = [head; tail].
Proof.
  induction head as [| c head IH]; simpl; intros H.
  - reflexivity.
  - apply andb_true_iff in H. destruct H as [Hc Hh].
    apply negb_true_iff in Hc. simpl in IH. rewrite Hc, (IH Hh). reflexivity.
Qed.

(** X21: The strength f_ub is read from the text before the first dot alone: for
    a grade "head.tail" with no dot in head, and for a grade "head" with no
    dot at all, the result is that of int(head) times 100, a [ValueError]
    when head is no integer literal; the text after the dot never matters. *)
Theorem f_ub_reads_the_head_only
  (self : EN1993_1_3.ResistenciasDisenoTornillos) (head tail : string) :
  dot_free head = true ->
  EN1993_1_3.grado self = (head ++ "." ++ tail)%string
  \/ EN1993_1_3.grado self = head ->
  EN1993_1_3.resistencia_ultima_traccion_tornillo_f_ub self =
  (n1 <- int head ;; ret (n1 * 100)%Z).
Proof.
  intros Hfree Hg.
  unfold EN1993_1_3.resistencia_ultima_traccion_tornillo_f_ub.
  destruct Hg as [-> | ->].
  - rewrite (split_dot_1_head_tail head tail Hfree).
    change (getitem [head; tail] 0) with (ret head).
    rewrite bind_ret. reflexivity.
  - rewrite (split_dot_1_dot_free head Hfree).
    change (getitem [head] 0) with (ret head).
    rewrite bind_ret. reflexivity.
Qed.

Lemma f_ub_reads_the_head_only_witness :
  dot_free "10" = true
  /\ (EN1993_1_3.grado (EN1993_1_3.init 12 84 "10.9" 13 2 450 1.25) =
        ("10" ++ "." ++ "9")%string
      \/ EN1993_1_3.grado (EN1993_1_3.init 12 84 "10.9" 13 2 450 1.25) = "10"%string)
  /\ EN1993_1_3.resistencia_ultima_traccion_tornillo_f_ub
       (EN1993_1_3.init 12 84 "10.9" 13 2 450 1.25) =
     (n1 <- int "10" ;; ret (n1 * 100)%Z).
Proof.
  assert (Hg :
    EN1993_1_3.grado (EN1993_1_3.init 12 84 "10.9" 13 2 450 1.25) =
      ("10" ++ "." ++ "9")%string
    \/ EN1993_1_3.grado (EN1993_1_3.init 12 84 "10.9" 13 2 450 1.25) = "10"%string).
  { left. reflexivity. }
  split; [reflexivity |]. split; [exact Hg |].
  exact (f_ub_reads_the_head_only
           (EN1993_1_3.init 12 84 "10.9" 13 2 450 1.25) "10"%string "9"%string
           eq_refl Hg).
Defined.



(** ** The thin-gauge validity floors in the general engine *)

(** X23: For a constructed layout the thin-gauge validity floors lie above the
    general minimum distances for e_2, p_1 and p_2 (1.5 d_0 > 1.2 d_0,
    3 d_0 > 2.2 d_0, 3 d_0 > 2.4 d_0) but below it for e_1
    (1.0 d_0 < 1.2 d_0). *)
Theorem validity_floors_versus_minimum_distances (d_0 t : R)
  (layout : EN1993_1_8_3_5.DisposicionTaladros) :
  EN1993_1_8_3_5.init d_0 t = ([], Return layout) ->
  let floors := EN1993_1_3.Build_RangoValidez d_0 in
  EN1993_1_3.rango_validez_e_1 floors <
    EN1993_1_8_3_5.distancia_centro_extremo_direccion_carga_minima layout
  /\ EN1993_1_8_3_5.distancia_centro_extremo_direccion_perpendicular_carga_minima
       layout < EN1993_1_3.rango_validez_e_2 floors
  /\ EN1993_1_8_3_5.espacio_entre_centros_minimo layout <
     EN1993_1_3.rango_validez_p_1 floors
  /\ EN1993_1_8_3_5.espacio_medio_perpendicular_carga_minimo layout <
     EN1993_1_3.rango_validez_p_2 floors.
Proof.
  intros Hinit. apply init_inv_3_5 in Hinit. destruct Hinit as [Hd [Ht ->]].
  unfold EN1993_1_3.rango_validez_e_1, EN1993_1_3.rango_validez_e_2,
    EN1993_1_3.rango_validez_p_1, EN1993_1_3.rango_validez_p_2,
    EN1993_1_8_3_5.distancia_centro_extremo_direccion_carga_minima,
    EN1993_1_8_3_5.distancia_centro_extremo_direccion_perpendicular_carga_minima,
    EN1993_1_8_3_5.espacio_entre_centros_minimo,
    EN1993_1_8_3_5.espacio_medio_perpendicular_carga_minimo.
  simpl. repeat split; lra.
Qed.

Lemma validity_floors_versus_minimum_distances_witness :
  EN1993_1_8_3_5.init 22 15 = ([], Return example_layout)
  /\
  let floors := EN1993_1_3.Build_RangoValidez 22 in
  EN1993_1_3.rango_validez_e_1 floors <
    EN1993_1_8_3_5.distancia_centro_extremo_direccion_carga_minima
      example_layout
  /\ EN1993_1_8_3_5.distancia_centro_extremo_direccion_perpendicular_carga_minima
       example_layout < EN1993_1_3.rango_validez_e_2 floors
  /\ EN1993_1_8_3_5.espacio_entre_centros_minimo example_layout <
     EN1993_1_3.rango_validez_p_1 floors
  /\ EN1993_1_8_3_5.espacio_medio_perpendicular_carga_minimo example_layout <
     EN1993_1_3.rango_validez_p_2 floors.
Proof.
  assert (Hinit : EN1993_1_8_3_5.init 22 15 = ([], Return example_layout)).
  { apply init_ok_3_5; lra. }
  split; [exact Hinit |].
  exact (validity_floors_versus_minimum_distances 22 15 example_layout Hinit).
Defined.

(** X24: At the thin-gauge validity floors (e_1 = d_0, e_2 = 1.5 d_0,
    p_1 = p_2 = 3 d_0) and d_0 > 0 the general coefficient k_1 is 2.5 at both
    positions, the cap and the constant of the thin-gauge bearing formula;
    alpha_d is 1/3 for an "end" bolt and 0.75 for an "inner" bolt. *)
Theorem coefficients_at_validity_floors
  (bolt : EN1993_1_8.ResistenciaCalculo) (d_0 : R) :
  0 < d_0 ->
  let floors := EN1993_1_3.Build_RangoValidez d_0 in
  let e_1 := EN1993_1_3.rango_validez_e_1 floors in
  let e_2 := EN1993_1_3.rango_validez_e_2 floors in
  let p_1 := EN1993_1_3.rango_validez_p_1 floors in
  let p_2 := EN1993_1_3.rango_validez_p_2 floors in
  EN1993_1_8.coeficiente_k_1 bolt e_2 p_2 d_0 "edge" = ([], Return 2.5)
  /\ EN1993_1_8.coeficiente_k_1 bolt e_2 p_2 d_0 "inner" = ([], Return 2.5)
  /\ EN1993_1_8.coeficiente_alfa_d bolt e_1 p_1 d_0 "end" =
     ([], Return (1 / 3))
  /\ EN1993_1_8.coeficiente_alfa_d bolt e_1 p_1 d_0 "inner" =
     ([], Return 0.75).
Proof.
  intros Hd.
  unfold EN1993_1_3.rango_validez_e_1, EN1993_1_3.rango_validez_e_2,
    EN1993_1_3.rango_validez_p_1, EN1993_1_3.rango_validez_p_2.
  cbn [EN1993_1_3.RangoValidez_d_0].
  rewrite coeficiente_k_1_edge, coeficiente_k_1_inner by exact Hd.
  rewrite coeficiente_alfa_d_end, coeficiente_alfa_d_inner by exact Hd.
  replace (2.8 * (1.5 * d_0)) with (4.2 * d_0) by lra.
  replace (1.4 * (3 * d_0)) with (4.2 * d_0) by lra.
  replace (d_0 / (3 * d_0)) with (1 * d_0 / (3 * d_0))
    by (f_equal; lra).
  rewrite !div_same by lra. rewrite !div_scaled by lra.
  unfold ret. repeat split; do 2 f_equal.
  - unfold Rmin.
    destruct (Rle_dec (4.2 - 1.7) (4.2 - 1.7)); [| lra].
    destruct (Rle_dec (4.2 - 1.7) 2.5); lra.
  - unfold Rmin. destruct (Rle_dec (4.2 - 1.7) 2.5); lra.
  - lra.
Qed.

Lemma coefficients_at_validity_floors_witness :
  0 < 13 /\
  let floors := EN1993_1_3.Build_RangoValidez 13 in
  let e_1 := EN1993_1_3.rango_validez_e_1 floors in
  let e_2 := EN1993_1_3.rango_validez_e_2 floors in
  let p_1 := EN1993_1_3.rango_validez_p_1 floors in
  let p_2 := EN1993_1_3.rango_validez_p_2 floors in
  EN1993_1_8.coeficiente_k_1 example_M20 e_2 p_2 13 "edge" = ([], Return 2.5)
  /\ EN1993_1_8.coeficiente_k_1 example_M20 e_2 p_2 13 "inner" =
     ([], Return 2.5)
  /\ EN1993_1_8.coeficiente_alfa_d example_M20 e_1 p_1 13 "end" =
     ([], Return (1 / 3))
  /\ EN1993_1_8.coeficiente_alfa_d example_M20 e_1 p_1 13 "inner" =
     ([], Return 0.75).
Proof.
  assert (Hd : 0 < 13) by lra.
  split; [exact Hd |].
  exact (coefficients_at_validity_floors example_M20 13 Hd).
Defined.

(** ** EN 1993-1-8: what the constructor checks *)

(** X2: The constructor of [ResistenciaCalculo] returns exactly when
    gamma_M2 > 0 and f_u > 0 and then stores every argument as given; it
    checks nothing else (any d, A, A_s, f_ub, t and any grade string are
    accepted); otherwise it raises [ValueError] and the check of gamma_M2
    comes first. *)
Theorem init_1_8_accepts_iff
  (d A A_s : R) (grado : string) (f_ub t f_u g_M2 : R) :
  (returns (EN1993_1_8.init d A A_s grado f_ub t f_u g_M2) = true
   <-> 0 < g_M2 /\ 0 < f_u)
  /\ (0 < g_M2 -> 0 < f_u ->
      EN1993_1_8.init d A A_s grado f_ub t f_u g_M2 =
      ([], Return (EN1993_1_8.Build_ResistenciaCalculo
                     d A A_s grado f_ub t f_u g_M2)))
  /\ (g_M2 <= 0 ->
      EN1993_1_8.init d A A_s grado f_ub t f_u g_M2 =
      ([], Raise (ValueError ":( g_M2 debe ser positivo.")))
  /\ (0 < g_M2 -> f_u <= 0 ->
      EN1993_1_8.init d A A_s grado f_ub t f_u g_M2 =
      ([], Raise (ValueError ":( f_u debe ser positivo."))).
Proof.
  unfold EN1993_1_8.init.
  destruct (Rle_dec g_M2 0) as [Hg | Hg];
    [| destruct (Rle_dec f_u 0) as [Hf | Hf]].
  - repeat split; intros; try reflexivity; try lra; try discriminate.
  - repeat split; intros; try reflexivity; try lra; try discriminate.
  - repeat split; intros; try reflexivity; try lra; try discriminate.
Qed.

(** ** EN 1993-1-8: larger distances never lower the bearing coefficients *)

Lemma div_le_compat (x y c : R) : 0 < c -> x <= y -> x / c <= y / c.
Proof.
  intros Hc Hxy. unfold Rdiv. apply Rmult_le_compat_r; [| exact Hxy].
  apply Rlt_le. apply Rinv_0_lt_compat. exact Hc.
Qed.

Lemma Rmin_mono (a b a' b' : R) :
  a <= a' -> b <= b' -> Rmin a b <= Rmin a' b'.
Proof.
  intros Ha Hb. unfold Rmin.
  destruct (Rle_dec a b); destruct (Rle_dec a' b'); lra.
Qed.

(** X4: For a constructed bolt, d_0 > 0 and valid positions, the coefficients
    are monotone in the layout distances: enlarging e_2 and p_2 never lowers
    k_1, and enlarging e_1 and p_1 never lowers alpha_b. *)
Theorem bearing_coefficients_monotone
  (d A A_s : R) (grado : string) (f_ub t f_u g_M2 : R)
  (self : EN1993_1_8.ResistenciaCalculo)
  (e_1 e_1' e_2 e_2' p_1 p_1' p_2 p_2' d_0 : R)
  (posicion_k1 posicion_ad : string) :
  EN1993_1_8.init d A A_s grado f_ub t f_u g_M2 = ([], Return self) ->
  0 < d_0 ->
  str_in posicion_k1 ["edge"; "inner"]%string = true ->
  str_in posicion_ad ["end"; "inner"]%string = true ->
  e_1 <= e_1' -> e_2 <= e_2' -> p_1 <= p_1' -> p_2 <= p_2' ->
  exists k_1 k_1' alfa_b alfa_b' : R,
    EN1993_1_8.coeficiente_k_1 self e_2 p_2 d_0 posicion_k1 =
      ([], Return k_1)
    /\ EN1993_1_8.coeficiente_k_1 self e_2' p_2' d_0 posicion_k1 =
       ([], Return k_1')
    /\ EN1993_1_8.coeficiente_alfa_b self e_1 p_1 d_0 posicion_ad =
       ([], Return alfa_b)
    /\ EN1993_1_8.coeficiente_alfa_b self e_1' p_1' d_0 posicion_ad =
       ([], Return alfa_b')
    /\ k_1 <= k_1'
    /\ alfa_b <= alfa_b'.
Proof.
  intros Hinit Hd Hk Ha He1 He2 Hp1 Hp2.
  apply init_inv_1_8 in Hinit. destruct Hinit as [Hg [Hf ->]].
  do 4 eexists.
  rewrite !coeficiente_k_1_valid by assumption.
  rewrite !coeficiente_alfa_b_valid by (simpl; assumption).
  repeat (split; [reflexivity |]).
  split.
  - unfold spec_k_1. destruct (posicion_k1 =? "edge")%string.
    + repeat apply Rmin_mono; try lra.
      * apply Rplus_le_compat_r. apply div_le_compat; lra.
      * apply Rplus_le_compat_r. apply div_le_compat; lra.
    + apply Rmin_mono; [| lra].
      apply Rplus_le_compat_r. apply div_le_compat; lra.
  - repeat apply Rmin_mono; try lra.
    unfold spec_alpha_d. destruct (posicion_ad =? "end")%string.
    + apply div_le_compat; lra.
    + apply Rplus_le_compat_r. apply div_le_compat; lra.
Qed.

Lemma bearing_coefficients_monotone_witness :
  EN1993_1_8.init 20 314 245 "8.8" 800 15 430 1.25 = ([], Return example_M20)
  /\ 0 < 22
  /\ str_in "edge" ["edge"; "inner"]%string = true
  /\ str_in "end" ["end"; "inner"]%string = true
  /\ 30 <= 40 /\ 30 <= 35 /\ 60 <= 70 /\ 60 <= 66
  /\ exists k_1 k_1' alfa_b alfa_b' : R,
       EN1993_1_8.coeficiente_k_1 example_M20 30 60 22 "edge" =
         ([], Return k_1)
       /\ EN1993_1_8.coeficiente_k_1 example_M20 35 66 22 "edge" =
          ([], Return k_1')
       /\ EN1993_1_8.coeficiente_alfa_b example_M20 30 60 22 "end" =
          ([], Return alfa_b)
       /\ EN1993_1_8.coeficiente_alfa_b example_M20 40 70 22 "end" =
          ([], Return alfa_b')
       /\ k_1 <= k_1'
       /\ alfa_b <= alfa_b'.
Proof.
  assert (Hinit :
    EN1993_1_8.init 20 314 245 "8.8" 800 15 430 1.25 = ([], Return example_M20)).
  { apply init_ok_1_8; lra. }
  assert (Hd : 0 < 22) by lra.
  assert (H1 : 30 <= 40) by lra.
  assert (H2 : 30 <= 35) by lra.
  assert (H3 : 60 <= 70) by lra.
  assert (H4 : 60 <= 66) by lra.
  split; [exact Hinit |]. split; [exact Hd |].
  split; [reflexivity |]. split; [reflexivity |].
  split; [exact H1 |]. split; [exact H2 |].
  split; [exact H3 |]. split; [exact H4 |].
  exact (bearing_coefficients_monotone 20 314 245 "8.8"%string 800 15 430 1.25
           example_M20 30 40 30 35 60 70 60 66 22 "edge"%string "end"%string
           Hinit Hd eq_refl eq_refl H1 H2 H3 H4).
Defined.
